(** * Progress tracking, assessment grading and AI-mentor orchestration

    A shallow embedding of the core of the learning-experience platform
    backend ([backend/lxp/models.py], [backend/lxp/api.py],
    [backend/lxp/grok_service.py]) together with the properties of its
    grading engine, progress coordinator, path-completion aggregator,
    context builder and mentor orchestrator.

    Conventions.
    - A Python [str] is a list of Unicode code points ([pystr]); [len] is
      [length].  Literals are written [py "..."] (ASCII text) and the bullet
      U+2022 is [bullet].
    - A Python [float] is a primitive binary64 float; [int] is [Z].
    - The relational store is a record of tables, each a list of rows in
      table order; requests thread the store explicitly.  Primary keys are
      unique, foreign keys of stored rows point to existing rows, and the
      engine enforces NOT NULL and FOREIGN KEY on insertion.  The store left
      behind by a request that fails is not described.
    - The order in which the database returns the rows of a sliced query is
      not the program's: it is a parameter ([QueryOrder]), and only
      [Meta.ordering] constrains it ([by_updated_at_desc]).
    - A request reads the clock once: [now] stands for both [datetime.now()]
      and the [auto_now] stamp of [save()].
    - The xAI client is an oracle from a request to an outcome; every function
      that may call it returns the list of requests it issued.
    - What is written to standard output ([print]) is left out. *)

From Stdlib Require Import ZArith NArith Bool String Ascii Lia.
From Stdlib Require Import PrimFloat Uint63 FloatOps FloatAxioms SpecFloat DecimalString.
From Stdlib Require Import Sorted Permutation.
From stdpp Require Import base option list gmap.

Local Open Scope Z_scope.

(** ** Python strings *)

Module PyStr.

Abbreviation pystr := (list N).

(** An ASCII literal as a Python string. *)
Definition py (s : string) : pystr := map N_of_ascii (list_ascii_of_string s).

(** U+2022, the bullet that [generate_personalized_goals] accepts. *)
Definition bullet : N := 8226%N.

Fixpoint str_eqb (a b : pystr) : bool :=
  match a, b with
  | [], [] => true
  | x :: a', y :: b' => N.eqb x y && str_eqb a' b'
  | _, _ => false
  end.

(** [str.isspace] on one code point: the white-space table of CPython
    ([_PyUnicode_IsWhitespace]). *)
Definition isspace (c : N) : bool :=
  ((9 <=? c) && (c <=? 13) || (28 <=? c) && (c <=? 32)
   || (c =? 133) || (c =? 160) || (c =? 5760)
   || (8192 <=? c) && (c <=? 8202)
   || (c =? 8232) || (c =? 8233) || (c =? 8239) || (c =? 8287)
   || (c =? 12288))%N.

Fixpoint drop_while (f : N -> bool) (s : pystr) : pystr :=
  match s with
  | [] => []
  | c :: s' => if f c then drop_while f s' else s
  end.

(** [s.lstrip(chars)] and [s.rstrip(chars)] for a set of characters given by
    its membership test. *)
Definition lstrip_by (f : N -> bool) (s : pystr) : pystr := drop_while f s.
Definition rstrip_by (f : N -> bool) (s : pystr) : pystr :=
  rev (drop_while f (rev s)).

(** [s.strip()] *)
Definition strip (s : pystr) : pystr := rstrip_by isspace (lstrip_by isspace s).

Definition mem_char (chars : pystr) (c : N) : bool :=
  existsb (N.eqb c) chars.

(** [s.lstrip(chars)] *)
Definition lstrip_chars (chars s : pystr) : pystr := lstrip_by (mem_char chars) s.

(** [s.startswith(p)] *)
Fixpoint startswith (p s : pystr) : bool :=
  match p, s with
  | [], _ => true
  | x :: p', y :: s' => N.eqb x y && startswith p' s'
  | _ :: _, [] => false
  end.

(** [p in s] for strings: [p] occurs as a contiguous substring of [s]. *)
Fixpoint contains (p s : pystr) : bool :=
  startswith p s ||
  match s with
  | [] => false
  | _ :: s' => contains p s'
  end.

(** [s.split(sep)] for a one-character separator; never returns the empty
    list: [''.split('\n') == ['']]. *)
Fixpoint split_on (sep : N) (s : pystr) : list pystr :=
  match s with
  | [] => [[]]
  | c :: s' =>
      if N.eqb c sep then [] :: split_on sep s'
      else match split_on sep s' with
           | [] => [[c]]
           | w :: ws => (c :: w) :: ws
           end
  end.

(** [sep.join(parts)] *)
Fixpoint join (sep : pystr) (parts : list pystr) : pystr :=
  match parts with
  | [] => []
  | [p] => p
  | p :: ps => p ++ sep ++ join sep ps
  end.

(** [str(z)] for an [int]. *)
Definition str_of_Z (z : Z) : pystr := py (NilZero.string_of_int (Z.to_int z)).

(** ASCII digits, the only digits a classifier can decide without the Unicode
    database. *)
Definition ascii_isdigit (c : N) : bool := ((48 <=? c) && (c <=? 57))%N.

(** [str.lower] restricted to the ASCII letters. *)
Definition ascii_lower (s : pystr) : pystr :=
  map (fun c => if ((65 <=? c) && (c <=? 90))%N then (c + 32)%N else c) s.

End PyStr.

Import PyStr.

(** ** Python numbers *)

Module PyNum.

(** [float(z)]; exact for [|z| <= 2^53], which covers every count, score and
    threshold of the platform. *)
Definition of_Z (z : Z) : float :=
  if z <? 0 then PrimFloat.opp (PrimFloat.of_uint63 (Uint63.of_Z (- z)))
  else PrimFloat.of_uint63 (Uint63.of_Z z).

(** [a / b] on two [int]s (true division); the callers guard [b <> 0]. *)
Definition true_div (a b : Z) : float := PrimFloat.div (of_Z a) (of_Z b).

(** The integer nearest to [n / d], ties to even ([0 <= n], [0 < d]). *)
Definition rne_div (n d : Z) : Z :=
  let q := n / d in
  let r := n mod d in
  match 2 * r ?= d with
  | Lt => q
  | Gt => q + 1
  | Eq => if Z.even q then q else q + 1
  end.

(** The integer nearest to [m * 2^e * k], ties to even. *)
Definition rne_scaled (m : positive) (e k : Z) : Z :=
  if 0 <=? e then Z.pos m * 2 ^ e * k else rne_div (Z.pos m * k) (2 ^ (- e)).

(** [round(x, 2)]: CPython rounds the exact binary value of [x] to two
    decimals, ties to even, and returns the double nearest to that decimal;
    the nearest double to [n / 100] is the IEEE quotient of [n] by [100] when
    [n < 2^53], that is for [|x| < 2^46].  Integral values ([0 <= e]), zeros,
    infinities and NaN are returned unchanged. *)
Definition py_round2 (x : float) : float :=
  match Prim2SF x with
  | S754_finite s m e =>
      if 0 <=? e then x
      else
        let r := PrimFloat.div (of_Z (rne_scaled m e 100)) (of_Z 100) in
        if s then PrimFloat.opp r else r
  | _ => x
  end.

(** [f"{x:.0f}"]: the exact value rounded to an integer, ties to even. *)
Definition format_0f (x : float) : pystr :=
  match Prim2SF x with
  | S754_zero s => if s then py "-0" else py "0"
  | S754_infinity s => if s then py "-inf" else py "inf"
  | S754_nan => py "nan"
  | S754_finite s m e =>
      (if s then py "-" else []) ++ str_of_Z (rne_scaled m e 1)
  end.

(** [f >= z] for a [float] and an [int]: Python compares the exact values. *)
Definition float_ge_Z (f : float) (z : Z) : bool :=
  match Prim2SF f with
  | S754_zero _ => z <=? 0
  | S754_infinity s => negb s
  | S754_nan => false
  | S754_finite s m e =>
      let v := if s then Z.neg m else Z.pos m in
      if 0 <=? e then z <=? v * 2 ^ e else z * 2 ^ (- e) <=? v
  end.

(** A Python number: [int] or [float]. *)
Inductive pynum : Type :=
  | PyInt (z : Z)
  | PyFloat (f : float).

(** [x >= z] *)
Definition num_ge_int (x : pynum) (z : Z) : bool :=
  match x with
  | PyInt a => z <=? a
  | PyFloat f => float_ge_Z f z
  end.

(** The value a [FloatField] stores for [x]. *)
Definition to_float (x : pynum) : float :=
  match x with
  | PyInt z => of_Z z
  | PyFloat f => f
  end.

(** [f"{x:.0f}"] on a number. *)
Definition num_format_0f (x : pynum) : pystr :=
  match x with
  | PyInt z => str_of_Z z
  | PyFloat f => format_0f f
  end.

End PyNum.

Import PyNum.

(** ** JSON scalars

    Question identifiers, answer keys, submitted answers and the values of
    the mentor context are JSON scalars without a fractional part; arrays and
    objects are outside the modelled input domain. *)

Inductive json : Type :=
  | JNull
  | JBool (b : bool)
  | JInt (z : Z)
  | JStr (s : pystr).

(** Python's [==] on these values; [True == 1] and [False == 0]. *)
Definition json_eqb (a b : json) : bool :=
  match a, b with
  | JNull, JNull => true
  | JBool x, JBool y => Bool.eqb x y
  | JBool x, JInt y => (if x then 1 else 0) =? y
  | JInt x, JBool y => x =? (if y then 1 else 0)
  | JInt x, JInt y => x =? y
  | JStr x, JStr y => str_eqb x y
  | _, _ => false
  end.

(** [str(v)], which is also how an f-string renders [v]. *)
Definition py_str (v : json) : pystr :=
  match v with
  | JNull => py "None"
  | JBool true => py "True"
  | JBool false => py "False"
  | JInt z => str_of_Z z
  | JStr s => s
  end.

(** An insertion-ordered [dict] with string keys. *)
Definition pydict : Type := list (pystr * json).

Fixpoint dict_get (d : pydict) (k : pystr) : option json :=
  match d with
  | [] => None
  | (k', v) :: d' => if str_eqb k' k then Some v else dict_get d' k
  end.

(** [d[k] = v]: overwrite in place, or append a new key. *)
Fixpoint dict_set (d : pydict) (k : pystr) (v : json) : pydict :=
  match d with
  | [] => [(k, v)]
  | (k', v') :: d' =>
      if str_eqb k' k then (k', v) :: d' else (k', v') :: dict_set d' k v
  end.

(** ** The host: what the interpreter and the database engine provide

    The Unicode database, the shortest-repr printer of floats and the SQL
    [AVG] aggregate are not part of the repository; the code is verified for
    every host. *)

Class Host : Type := {
  (** [c.isdigit()] for a code point above U+007F *)
  unicode_isdigit : N -> bool;
  (** [s.lower()] *)
  str_lower : pystr -> pystr;
  (** [str(x)] for a float *)
  float_repr : float -> pystr;
  (** [AVG] over the values of a non-empty column *)
  sql_avg : list float -> float
}.

(** [c.isdigit()] *)
Definition isdigit `{Host} (c : N) : bool :=
  if (c <? 128)%N then ascii_isdigit c else unicode_isdigit c.

(** [str(x)] for a number. *)
Definition num_str `{Host} (x : pynum) : pystr :=
  match x with
  | PyInt z => str_of_Z z
  | PyFloat f => float_repr f
  end.

(** A host that agrees with CPython on ASCII text and on floats with an
    integral value below [10^16], and averages by a left-to-right sum. *)
Definition ascii_host : Host := {|
  unicode_isdigit := fun _ => false;
  str_lower := ascii_lower;
  float_repr := fun f => format_0f f ++ py ".0";
  sql_avg := fun l =>
    PrimFloat.div (fold_left PrimFloat.add l (of_Z 0)) (of_Z (Z.of_nat (length l)))
|}.

(** ** Errors a request handler can end with *)

Inductive error : Type :=
  | Http404                   (* get_object_or_404 found no row *)
  | DoesNotExist              (* a related object is missing *)
  | MultipleObjectsReturned   (* objects.get matched several rows *)
  | IntegrityError.           (* NOT NULL or FOREIGN KEY violated *)

Inductive result (A : Type) : Type :=
  | Ok (a : A)
  | Err (e : error).
Arguments Ok {A} a.
Arguments Err {A} e.

#[global] Instance result_ret : MRet result := fun _ a => Ok a.
#[global] Instance result_bind : MBind result := fun _ _ k r =>
  match r with
  | Ok a => k a
  | Err e => Err e
  end.

(** ** Data model ([models.py])

    Each model is a record of the columns the core reads or writes; foreign
    keys are the [_id] columns, [DateTimeField]s are whole seconds. *)

Module Student.
Record t : Type := {
  id : Z;
  first_name : pystr;
  last_name : pystr;
  grade_level : Z
}.
End Student.

Module Subject.
Record t : Type := {
  id : Z;
  name : pystr
}.
End Subject.

Module Content.
Record t : Type := {
  id : Z;
  subject_id : Z;
  title : pystr;
  content_type : pystr
}.
End Content.

Module LearningPath.
Record t : Type := {
  id : Z;
  student_id : Z;
  subject_id : Z;
  title : pystr;
  difficulty_level : pystr
}.
End LearningPath.

Module ContentAssignment.
Record t : Type := {
  id : Z;
  learning_path_id : Z;
  content_id : Z;
  order : Z
}.
End ContentAssignment.

(** One entry of [Assessment.questions]: the values of [question.get('id')]
    and [question.get('correct_answer')] ([JNull] when the key is absent) and
    the string under ['question'], if any. *)
Module Question.
Record t : Type := {
  id : json;
  correct_answer : json;
  question : option pystr
}.
End Question.

Module Assessment.
Record t : Type := {
  id : Z;
  subject_id : Z;
  content_id : option Z;
  title : pystr;
  questions : list Question.t;
  passing_score : Z
}.
End Assessment.

Module Progress.
Record t : Type := {
  id : Z;
  student_id : Z;
  learning_path_id : Z;
  content_id : Z;
  status : pystr;
  completion_percentage : float;
  time_spent_minutes : Z;
  started_at : option Z;
  completed_at : option Z;
  mastery_level : float;
  score : option float;
  updated_at : Z
}.

Definition set_status (v : pystr) (p : t) : t :=
  {| id := id p; student_id := student_id p;
     learning_path_id := learning_path_id p; content_id := content_id p;
     status := v; completion_percentage := completion_percentage p;
     time_spent_minutes := time_spent_minutes p; started_at := started_at p;
     completed_at := completed_at p; mastery_level := mastery_level p;
     score := score p; updated_at := updated_at p |}.

Definition set_completion_percentage (v : float) (p : t) : t :=
  {| id := id p; student_id := student_id p;
     learning_path_id := learning_path_id p; content_id := content_id p;
     status := status p; completion_percentage := v;
     time_spent_minutes := time_spent_minutes p; started_at := started_at p;
     completed_at := completed_at p; mastery_level := mastery_level p;
     score := score p; updated_at := updated_at p |}.

Definition set_time_spent_minutes (v : Z) (p : t) : t :=
  {| id := id p; student_id := student_id p;
     learning_path_id := learning_path_id p; content_id := content_id p;
     status := status p; completion_percentage := completion_percentage p;
     time_spent_minutes := v; started_at := started_at p;
     completed_at := completed_at p; mastery_level := mastery_level p;
     score := score p; updated_at := updated_at p |}.

Definition set_started_at (v : option Z) (p : t) : t :=
  {| id := id p; student_id := student_id p;
     learning_path_id := learning_path_id p; content_id := content_id p;
     status := status p; completion_percentage := completion_percentage p;
     time_spent_minutes := time_spent_minutes p; started_at := v;
     completed_at := completed_at p; mastery_level := mastery_level p;
     score := score p; updated_at := updated_at p |}.

Definition set_completed_at (v : option Z) (p : t) : t :=
  {| id := id p; student_id := student_id p;
     learning_path_id := learning_path_id p; content_id := content_id p;
     status := status p; completion_percentage := completion_percentage p;
     time_spent_minutes := time_spent_minutes p; started_at := started_at p;
     completed_at := v; mastery_level := mastery_level p;
     score := score p; updated_at := updated_at p |}.

Definition set_mastery_level (v : float) (p : t) : t :=
  {| id := id p; student_id := student_id p;
     learning_path_id := learning_path_id p; content_id := content_id p;
     status := status p; completion_percentage := completion_percentage p;
     time_spent_minutes := time_spent_minutes p; started_at := started_at p;
     completed_at := completed_at p; mastery_level := v;
     score := score p; updated_at := updated_at p |}.

Definition set_score (v : option float) (p : t) : t :=
  {| id := id p; student_id := student_id p;
     learning_path_id := learning_path_id p; content_id := content_id p;
     status := status p; completion_percentage := completion_percentage p;
     time_spent_minutes := time_spent_minutes p; started_at := started_at p;
     completed_at := completed_at p; mastery_level := mastery_level p;
     score := v; updated_at := updated_at p |}.

(** [auto_now=True]: [save()] stamps [updated_at]. *)
Definition set_updated_at (v : Z) (p : t) : t :=
  {| id := id p; student_id := student_id p;
     learning_path_id := learning_path_id p; content_id := content_id p;
     status := status p; completion_percentage := completion_percentage p;
     time_spent_minutes := time_spent_minutes p; started_at := started_at p;
     completed_at := completed_at p; mastery_level := mastery_level p;
     score := score p; updated_at := v |}.

(** The row [Progress.objects.create(student=.., learning_path=..,
    content=.., status='not_started')] inserts, every other column at its
    declared default. *)
Definition create (new_id student learning_path content now : Z) : t :=
  {| id := new_id; student_id := student;
     learning_path_id := learning_path; content_id := content;
     status := py "not_started"; completion_percentage := of_Z 0;
     time_spent_minutes := 0; started_at := None; completed_at := None;
     mastery_level := of_Z 0; score := None; updated_at := now |}.
End Progress.

Module AssessmentResult.
Record t : Type := {
  id : Z;
  student_id : Z;
  assessment_id : Z;
  learning_path_id : option Z;
  answers : gmap pystr json;
  score : float;
  passed : bool;
  started_at : Z;
  submitted_at : Z;
  time_taken_minutes : Z;
  feedback : pystr;
  ai_feedback : pystr;
  graded : bool
}.
End AssessmentResult.

Module AIMentorSession.
Record t : Type := {
  id : Z;
  student_id : Z;
  learning_path_id : option Z;
  session_type : pystr;
  query : pystr;
  response : pystr;
  context_data : pydict
}.
End AIMentorSession.

(** The record store: one list of rows per table. *)
Record DB : Type := {
  students : list Student.t;
  subjects : list Subject.t;
  contents : list Content.t;
  learning_paths : list LearningPath.t;
  content_assignments : list ContentAssignment.t;
  assessments : list Assessment.t;
  progress_records : list Progress.t;
  assessment_results : list AssessmentResult.t;
  mentor_sessions : list AIMentorSession.t
}.

Definition with_progress_records (rows : list Progress.t) (db : DB) : DB :=
  {| students := students db; subjects := subjects db; contents := contents db;
     learning_paths := learning_paths db;
     content_assignments := content_assignments db;
     assessments := assessments db; progress_records := rows;
     assessment_results := assessment_results db;
     mentor_sessions := mentor_sessions db |}.

Definition with_assessment_results (rows : list AssessmentResult.t) (db : DB) : DB :=
  {| students := students db; subjects := subjects db; contents := contents db;
     learning_paths := learning_paths db;
     content_assignments := content_assignments db;
     assessments := assessments db; progress_records := progress_records db;
     assessment_results := rows;
     mentor_sessions := mentor_sessions db |}.

Definition with_mentor_sessions (rows : list AIMentorSession.t) (db : DB) : DB :=
  {| students := students db; subjects := subjects db; contents := contents db;
     learning_paths := learning_paths db;
     content_assignments := content_assignments db;
     assessments := assessments db; progress_records := progress_records db;
     assessment_results := assessment_results db;
     mentor_sessions := rows |}.

(** *** Queries *)

(** The first row whose primary key is [k]. *)
Definition find_by_id {A : Type} (pk : A -> Z) (k : Z) (rows : list A) : option A :=
  List.find (fun r => pk r =? k) rows.

(** [get_object_or_404(Model, id=k)] *)
Definition get_object_or_404 {A : Type} (pk : A -> Z) (k : Z) (rows : list A) : result A :=
  match find_by_id pk k rows with
  | Some r => Ok r
  | None => Err Http404
  end.

(** Following a foreign key to its row. *)
Definition related {A : Type} (pk : A -> Z) (k : Z) (rows : list A) : result A :=
  match find_by_id pk k rows with
  | Some r => Ok r
  | None => Err DoesNotExist
  end.

(** The next value of an auto-increment primary key. *)
Definition next_id {A : Type} (pk : A -> Z) (rows : list A) : Z :=
  1 + fold_left (fun m r => Z.max m (pk r)) rows 0.

(** [Meta.ordering = ['-updated_at']]: a query on [Progress] that is sliced
    returns its rows by decreasing [updated_at].  The code gives no second
    key, so the order among rows with equal stamps is the database's; it is
    whatever [order_by] does with them. *)
Class QueryOrder : Type := {
  order_by : list Progress.t -> list Progress.t
}.

(** [progress.save()]: write the row back under its primary key and stamp
    [updated_at]. *)
Definition save_progress (p : Progress.t) (now : Z) (db : DB) : DB :=
  with_progress_records
    (map (fun r => if Progress.id r =? Progress.id p
                   then Progress.set_updated_at now p else r)
         (progress_records db))
    db.

(** ** Path completion aggregator ([LearningPath.completion_percentage]) *)

(** [self.content_assignments.count()] *)
Definition count_assignments (db : DB) (path : LearningPath.t) : Z :=
  Z.of_nat (length (List.filter
    (fun a => ContentAssignment.learning_path_id a =? LearningPath.id path)
    (content_assignments db))).

(** [Progress.objects.filter(learning_path=self,
    completed_at__isnull=False).count()] *)
Definition count_completed (db : DB) (path : LearningPath.t) : Z :=
  Z.of_nat (length (List.filter
    (fun p => (Progress.learning_path_id p =? LearningPath.id path)
              && bool_decide (Progress.completed_at p <> None))
    (progress_records db))).

Definition completion_percentage (db : DB) (path : LearningPath.t) : float :=
  let total_content := count_assignments db path in
  if total_content =? 0 then of_Z 0
  else
    let completed_content := count_completed db path in
    py_round2 (PrimFloat.mul (true_div completed_content total_content) (of_Z 100)).

(** ** The xAI client *)

Record exn : Type := {
  exc_type : pystr;      (* type(e).__name__ *)
  exc_message : pystr    (* str(e) *)
}.

Record llm_request : Type := {
  messages : list (pystr * pystr);   (* role, content *)
  temperature : float;
  max_tokens : Z;
  timeout : option float
}.

(** What [client.chat.completions.create] does: raise, or return a
    completion whose choices carry [message.content], possibly [None]. *)
Inductive llm_outcome : Type :=
  | Raises (e : exn)
  | Completion (choices : list (option pystr)).

Definition llm_client : Type := llm_request -> llm_outcome.

(** ** [GrokService] ([grok_service.py]) *)

Module GrokService.
Section WithHost.
Context `{Host}.

Definition value_error (msg : string) : exn :=
  {| exc_type := py "ValueError"; exc_message := py msg |}.

(** *** Fixed replies of [chat] *)

Definition empty_query_message : pystr :=
  py "I didn't receive a question. What would you like to know?".
Definition refusal_message : pystr :=
  py "I'd be happy to help with your studies! Could you rephrase your question or ask about a specific topic you're learning?".
Definition timeout_message : pystr :=
  py "I'm taking a bit longer to think. Could you try asking your question again?".
Definition auth_message : pystr :=
  py "I'm having trouble connecting to my knowledge base. Please let your teacher know.".
Definition rate_limit_message : pystr :=
  py "I'm getting too many questions right now. Please wait a moment and try again.".
Definition generic_message : pystr :=
  py "I encountered an issue, but I'm here to help! Could you try rephrasing your question?".

(** The [except Exception as e] branch of [chat]. *)
Definition chat_fallback (e : exn) : pystr :=
  let text := str_lower (exc_message e) in
  if contains (py "timeout") text then timeout_message
  else if contains (py "api_key") text || contains (py "authentication") text
  then auth_message
  else if contains (py "rate_limit") text then rate_limit_message
  else generic_message.

(** [if key in student_context: system_message += before + value + after] *)
Definition add_fact (student_context : pydict) (key before after : string)
    (system_message : pystr) : pystr :=
  match dict_get student_context (py key) with
  | Some v => system_message ++ py before ++ py_str v ++ py after
  | None => system_message
  end.

(** The system message [chat] assembles from the persona, the student
    context and the learning context. *)
Definition chat_system_message (system_context : option pystr)
    (student_context : pydict) : pystr :=
  let m0 :=
    py "You are an AI Learning Mentor helping students with their studies. "
    ++ py "You should be encouraging, patient, and provide clear explanations tailored to the student's level. "
    ++ py "Keep responses concise (2-3 paragraphs) and actionable. " in
  let m1 :=
    match student_context with
    | [] => m0
    | _ =>
        add_fact student_context "difficulty" "The difficulty level is " ". "
          (add_fact student_context "subject" "They are currently studying " ". "
            (add_fact student_context "student_grade" "The student is in grade " ". "
              (add_fact student_context "student_name" "Address the student as " ". " m0)))
    end in
  match system_context with
  | Some (c :: ctx) =>
      m1 ++ [10%N; 10%N] ++ py "Current learning context: " ++ (c :: ctx)
  | _ => m1
  end.

Definition chat_request (user_message : pystr) (system_context : option pystr)
    (student_context : pydict) : llm_request :=
  {| messages := [(py "system", chat_system_message system_context student_context);
                  (py "user", user_message)];
     temperature := 0x1.6666666666666p-1%float;   (* 0.7 *)
     max_tokens := 500;
     timeout := Some 15%float |}.

(** The [try] block of [chat] after the call returned [choices]: either the
    reply, or the exception the block raises itself. *)
Definition chat_validate (choices : list (option pystr)) : pystr + exn :=
  match choices with
  | [] => inr (value_error "No response choices returned from API")
  | content :: _ =>
      match content with
      | None => inr (value_error "Empty response content from API")
      | Some response_content =>
          if bool_decide (strip response_content = [])
          then inr (value_error "Empty response content from API")
          else
            let response_lower := str_lower response_content in
            if existsb (fun phrase => contains phrase response_lower)
                 [py "i cannot"; py "i'm unable to"; py "against my programming"]
            then inl refusal_message
            else inl (strip response_content)
      end
  end.

(** [GrokService.chat]: the reply and the requests sent to the client. *)
Definition chat (client : llm_client) (user_message : pystr)
    (system_context : option pystr) (student_context : pydict)
    : pystr * list llm_request :=
  if bool_decide (strip user_message = []) then (empty_query_message, [])
  else
    let request := chat_request user_message system_context student_context in
    let reply :=
      match client request with
      | Raises e => chat_fallback e
      | Completion choices =>
          match chat_validate choices with
          | inl text => text
          | inr e => chat_fallback e
          end
      end in
    (reply, [request]).

(** *** Goal generation *)

(** [_get_fallback_goals] *)
Definition _get_fallback_goals (subject difficulty : pystr) : list pystr :=
  let subject_name := match subject with [] => py "the subject" | _ => subject end in
  [ py "Understand and master core concepts in " ++ subject_name;
    py "Complete all assigned content at " ++ difficulty ++ py " level with 80%+ accuracy";
    py "Apply " ++ subject_name ++ py " knowledge to solve real-world problems";
    py "Demonstrate mastery through assessments and projects" ].

(** The characters [line.lstrip('-*\u20220123456789. ')] removes. *)
Definition marker_chars : pystr := py "-*" ++ [bullet] ++ py "0123456789. ".

(** The bullet test of the parsing loop, on a stripped line. *)
Definition is_bullet_line (line : pystr) : bool :=
  match line with
  | [] => false
  | c :: _ =>
      startswith (py "-") line || startswith (py "*") line
      || startswith [bullet] line
      || (isdigit c && mem_char (take 3 line) 46%N)
  end.

(** [line.lstrip('-*\u20220123456789. ').strip()] *)
Definition clean_goal (line : pystr) : pystr :=
  strip (lstrip_chars marker_chars line).

(** One iteration of [for line in lines]. *)
Definition parse_step (goals : list pystr) (raw : pystr) : list pystr :=
  let line := strip raw in
  if is_bullet_line line then
    let goal := clean_goal line in
    if bool_decide (goal <> []) && (10 <? Z.of_nat (length goal))
    then goals ++ [goal]
    else goals
  else goals.

(** The parsing loop over [response.split('\n')]. *)
Definition parse_goals (response : pystr) : list pystr :=
  fold_left parse_step (split_on 10%N response) [].

Definition goals_prompt (student_grade : json) (subject difficulty : pystr) : pystr :=
  py "Generate exactly 4 specific, measurable, and achievable learning goals for a grade "
  ++ py_str student_grade ++ py " student" ++ [10%N]
  ++ py "studying " ++ subject ++ py " at a " ++ difficulty
  ++ py " level. Each goal should be:" ++ [10%N]
  ++ py "- One clear sentence" ++ [10%N]
  ++ py "- Grade-appropriate" ++ [10%N]
  ++ py "- Focused on mastery and understanding" ++ [10%N]
  ++ py "- Actionable for the student" ++ [10%N; 10%N]
  ++ py "Format: Return ONLY a bulleted list with exactly 4 goals, each starting with a dash (-).".

Definition goals_request (student_grade : json) (subject difficulty : pystr) : llm_request :=
  {| messages :=
       [(py "system", py "You are an expert educational curriculum designer creating personalized learning goals.");
        (py "user", goals_prompt student_grade subject difficulty)];
     temperature := 0x1.999999999999ap-1%float;   (* 0.8 *)
     max_tokens := 400;
     timeout := Some 10%float |}.

(** [not isinstance(student_grade, int) or student_grade < 1]; a [bool] is
    an [int] in Python. *)
Definition grade_invalid (student_grade : json) : bool :=
  match student_grade with
  | JInt z => z <? 1
  | JBool b => negb b
  | JNull | JStr _ => true
  end.

(** The [try] block of [generate_personalized_goals] once [choices] came
    back; [None] when the block raises. *)
Definition goals_from_choices (choices : list (option pystr))
    (subject difficulty : pystr) : option (list pystr) :=
  match choices with
  | [] => None
  | None :: _ => None
  | Some response :: _ =>
      if bool_decide (strip response = []) then None
      else
        let goals := parse_goals response in
        if 3 <=? Z.of_nat (length goals) then Some (take 5 goals)
        else Some (_get_fallback_goals subject difficulty)
  end.

(** [GrokService.generate_personalized_goals]: the goals and the requests
    sent to the client. *)
Definition generate_personalized_goals (client : llm_client)
    (student_grade : json) (subject difficulty : pystr)
    : list pystr * list llm_request :=
  if bool_decide (subject = []) || grade_invalid student_grade
  then (_get_fallback_goals subject difficulty, [])
  else
    let request := goals_request student_grade subject difficulty in
    let goals :=
      match client request with
      | Raises _ => _get_fallback_goals subject difficulty
      | Completion choices =>
          match goals_from_choices choices subject difficulty with
          | Some goals => goals
          | None => _get_fallback_goals subject difficulty
          end
      end in
    (goals, [request]).

(** *** Assessment feedback *)

Definition feedback_prompt (score : pynum) (subject : pystr)
    (questions_missed : option (list pystr)) : pystr :=
  py "A student scored " ++ num_str score ++ py "% on a " ++ subject
  ++ py " assessment. "
  ++ match questions_missed with
     | Some (q :: qs) =>
         py "They struggled with: " ++ join (py ", ") (q :: qs) ++ py ". "
     | _ => []
     end
  ++ py "Provide encouraging, specific feedback (2-3 sentences) on how to improve.".

Definition feedback_request (score : pynum) (subject : pystr)
    (questions_missed : option (list pystr)) : llm_request :=
  {| messages := [(py "user", feedback_prompt score subject questions_missed)];
     temperature := 0x1.6666666666666p-1%float;   (* 0.7 *)
     max_tokens := 200;
     timeout := None |}.

Definition feedback_fallback (score : pynum) : pystr :=
  if num_ge_int score 80 then
    py "Great job! You scored " ++ num_str score
    ++ py "% which shows strong understanding. Keep up the excellent work!"
  else if num_ge_int score 60 then
    py "You scored " ++ num_str score
    ++ py "%. You're on the right track! Review the areas you found challenging and try some practice problems."
  else
    py "You scored " ++ num_str score
    ++ py "%. Don't worry - learning takes time! Let's focus on understanding the fundamentals. I'm here to help if you have questions.".

(** [GrokService.generate_assessment_feedback]; the value is
    [choices[0].message.content], which may be [None]. *)
Definition generate_assessment_feedback (client : llm_client) (score : pynum)
    (subject : pystr) (questions_missed : option (list pystr))
    : option pystr * list llm_request :=
  let request := feedback_request score subject questions_missed in
  let text :=
    match client request with
    | Raises _ => Some (feedback_fallback score)
    | Completion [] => Some (feedback_fallback score)
    | Completion (content :: _) => content
    end in
  (text, [request]).

End WithHost.
End GrokService.

(** ** Request payloads ([api.py], schemas) *)

Module ProgressInputSchema.
Record t : Type := {
  status : option pystr;
  completion_percentage : option float;
  time_spent_minutes : option Z;
  mastery_level : option float;
  score : option float
}.
End ProgressInputSchema.

Module AssessmentInputSchema.
Record t : Type := {
  student_id : Z;
  learning_path_id : option Z;
  answers : gmap pystr json;
  started_at : Z;
  submitted_at : Z
}.
End AssessmentInputSchema.

Module AIMentorChatInputSchema.
Record t : Type := {
  student_id : Z;
  learning_path_id : option Z;
  content_id : option Z;
  session_type : pystr;
  query : pystr
}.
End AIMentorChatInputSchema.

(** Truth value of an [Optional[int]]: [None] and [0] are false. *)
Definition truthy_id (k : option Z) : option Z :=
  match k with
  | Some z => if z =? 0 then None else Some z
  | None => None
  end.

(** ** Progress coordinator: manual update ([update_progress]) *)

(** The field assignments of [update_progress] on the fetched row; [now] is
    the value of [datetime.now()]. *)
Definition apply_progress_payload (payload : ProgressInputSchema.t) (now : Z)
    (progress : Progress.t) : Progress.t :=
  let p1 :=
    match ProgressInputSchema.status payload with
    | Some (c :: s) =>
        let status := c :: s in
        let p := Progress.set_status status progress in
        if str_eqb status (py "in_progress")
           && bool_decide (Progress.started_at p = None)
        then Progress.set_started_at (Some now) p
        else if str_eqb status (py "completed")
                && bool_decide (Progress.completed_at p = None)
        then Progress.set_completed_at (Some now) p
        else p
    | _ => progress
    end in
  let p2 :=
    match ProgressInputSchema.completion_percentage payload with
    | Some v => Progress.set_completion_percentage v p1
    | None => p1
    end in
  let p3 :=
    match ProgressInputSchema.time_spent_minutes payload with
    | Some v => Progress.set_time_spent_minutes v p2
    | None => p2
    end in
  let p4 :=
    match ProgressInputSchema.mastery_level payload with
    | Some v => Progress.set_mastery_level v p3
    | None => p3
    end in
  match ProgressInputSchema.score payload with
  | Some v => Progress.set_score (Some v) p4
  | None => p4
  end.

(** [PUT /progress/{progress_id}]: the saved row, its [content_title] and
    the store after the request. *)
Definition update_progress (db : DB) (progress_id : Z)
    (payload : ProgressInputSchema.t) (now : Z)
    : result (Progress.t * pystr * DB) :=
  progress ← get_object_or_404 Progress.id progress_id (progress_records db);
  let progress' := apply_progress_payload payload now progress in
  let db' := save_progress progress' now db in
  content ← related Content.id (Progress.content_id progress') (contents db');
  Ok (Progress.set_updated_at now progress', Content.title content, db').

(** ** Grading engine (the scoring part of [submit_assessment]) *)

(** [str(question.get('id'))] *)
Definition question_id (question : Question.t) : pystr :=
  py_str (Question.id question).

(** The first loop: [correct_answers]. *)
Definition correct_answers (questions : list Question.t)
    (answers : gmap pystr json) : Z :=
  fold_left
    (fun n question =>
       match answers !! question_id question with
       | Some answer =>
           if json_eqb answer (Question.correct_answer question) then n + 1 else n
       | None => n
       end)
    questions 0.

Definition score (questions : list Question.t) (answers : gmap pystr json) : pynum :=
  let total_questions := Z.of_nat (length questions) in
  if 0 <? total_questions
  then PyFloat (PrimFloat.mul
                  (true_div (correct_answers questions answers) total_questions)
                  (of_Z 100))
  else PyInt 0.

Definition passed (assessment : Assessment.t) (answers : gmap pystr json) : bool :=
  num_ge_int (score (Assessment.questions assessment) answers)
             (Assessment.passing_score assessment).

(** [int((submitted_at - started_at).total_seconds() / 60)] *)
Definition time_taken (started_at submitted_at : Z) : Z :=
  Z.quot (submitted_at - started_at) 60.

(** [question.get('question', 'Unknown question')] *)
Definition question_text (question : Question.t) : pystr :=
  default (py "Unknown question") (Question.question question).

(** The second loop: [questions_missed]. *)
Definition questions_missed (questions : list Question.t)
    (answers : gmap pystr json) : list pystr :=
  fold_left
    (fun missed question =>
       match answers !! question_id question with
       | Some answer =>
           if negb (json_eqb answer (Question.correct_answer question))
           then missed ++ [question_text question]
           else missed
       | None => missed
       end)
    questions [].

(** ** Progress coordinator: assessment-driven update *)

(** The rows [Progress.objects.get(student=.., learning_path_id=..,
    content=..)] chooses from. *)
Definition matching_progress (db : DB) (student learning_path content : Z)
    : list Progress.t :=
  List.filter
    (fun p => (Progress.student_id p =? student)
              && (Progress.learning_path_id p =? learning_path)
              && (Progress.content_id p =? content))
    (progress_records db).

(** The assignments inside the [try], on the row that was found. *)
Definition apply_assessment_outcome (score : pynum) (passed : bool) (now : Z)
    (progress : Progress.t) : Progress.t :=
  let p := Progress.set_mastery_level (to_float score)
             (Progress.set_score (Some (to_float score)) progress) in
  if passed then
    Progress.set_completion_percentage (of_Z 100)
      (Progress.set_completed_at (Some now)
        (Progress.set_status (py "completed") p))
  else Progress.set_status (py "needs_review") p.

(** [if payload.learning_path_id and assessment.content: try: ... except
    Progress.DoesNotExist: pass] *)
Definition update_progress_from_assessment (db : DB) (student : Student.t)
    (assessment : Assessment.t) (learning_path_id : option Z)
    (score : pynum) (passed : bool) (now : Z) : result DB :=
  match truthy_id learning_path_id, Assessment.content_id assessment with
  | Some learning_path, Some content_id =>
      content ← related Content.id content_id (contents db);
      match matching_progress db (Student.id student) learning_path
              (Content.id content) with
      | [] => Ok db
      | [progress] =>
          Ok (save_progress (apply_assessment_outcome score passed now progress) now db)
      | _ => Err MultipleObjectsReturned
      end
  | _, _ => Ok db
  end.

(** The foreign-key check on a nullable [learning_path_id] column. *)
Definition learning_path_known (db : DB) (learning_path_id : option Z) : bool :=
  match learning_path_id with
  | None => true
  | Some k => bool_decide (find_by_id LearningPath.id k (learning_paths db) <> None)
  end.

(** [AssessmentResult.objects.create(...)]: [ai_feedback] is NOT NULL and
    [learning_path_id] is a foreign key. *)
Definition create_assessment_result (db : DB) (student : Student.t)
    (assessment : Assessment.t) (payload : AssessmentInputSchema.t)
    (score : pynum) (passed : bool) (ai_feedback : option pystr)
    : result (AssessmentResult.t * DB) :=
  match ai_feedback with
  | None => Err IntegrityError
  | Some text =>
      if learning_path_known db (AssessmentInputSchema.learning_path_id payload) then
        let row :=
          {| AssessmentResult.id :=
               next_id AssessmentResult.id (assessment_results db);
             AssessmentResult.student_id := Student.id student;
             AssessmentResult.assessment_id := Assessment.id assessment;
             AssessmentResult.learning_path_id :=
               AssessmentInputSchema.learning_path_id payload;
             AssessmentResult.answers := AssessmentInputSchema.answers payload;
             AssessmentResult.score := to_float score;
             AssessmentResult.passed := passed;
             AssessmentResult.started_at := AssessmentInputSchema.started_at payload;
             AssessmentResult.submitted_at := AssessmentInputSchema.submitted_at payload;
             AssessmentResult.time_taken_minutes :=
               time_taken (AssessmentInputSchema.started_at payload)
                          (AssessmentInputSchema.submitted_at payload);
             AssessmentResult.feedback := [];
             AssessmentResult.ai_feedback := text;
             AssessmentResult.graded := true |} in
        Ok (row, with_assessment_results (assessment_results db ++ [row]) db)
      else Err IntegrityError
  end.

Section WithHost.
Context `{Host}.

(** [POST /assessments/{assessment_id}/submit]: the stored result, the store
    after the request and the requests sent to the client. *)
Definition submit_assessment (client : llm_client) (db : DB) (assessment_id : Z)
    (payload : AssessmentInputSchema.t) (now : Z)
    : result (AssessmentResult.t * DB * list llm_request) :=
  assessment ← get_object_or_404 Assessment.id assessment_id (assessments db);
  student ← get_object_or_404 Student.id
              (AssessmentInputSchema.student_id payload) (students db);
  let answers := AssessmentInputSchema.answers payload in
  let score := score (Assessment.questions assessment) answers in
  let passed := passed assessment answers in
  let missed := questions_missed (Assessment.questions assessment) answers in
  subject ← related Subject.id (Assessment.subject_id assessment) (subjects db);
  let '(ai_feedback, calls) :=
    GrokService.generate_assessment_feedback client score (Subject.name subject)
      (match missed with [] => None | _ => Some missed end) in
  '(row, db1) ← create_assessment_result db student assessment payload
                    score passed ai_feedback;
  db2 ← update_progress_from_assessment db1 student assessment
          (AssessmentInputSchema.learning_path_id payload) score passed now;
  Ok (row, db2, calls).

End WithHost.

(** ** Context builder and mentor orchestrator ([chat_with_ai_mentor]) *)

Section WithHost.
Context `{Host} {O : QueryOrder}.

(** The rows of
    [Progress.objects.filter(student=student, learning_path=learning_path)]. *)
Definition path_progress (db : DB) (student : Student.t)
    (learning_path : LearningPath.t) : list Progress.t :=
  List.filter
    (fun p => (Progress.student_id p =? Student.id student)
              && (Progress.learning_path_id p =? LearningPath.id learning_path))
    (progress_records db).

(** [.filter(status=s).count()] *)
Definition count_status (rows : list Progress.t) (s : string) : Z :=
  Z.of_nat (length (List.filter (fun p => str_eqb (Progress.status p) (py s)) rows)).

(** [.aggregate(avg=Avg('mastery_level'))['avg'] or 0] on a non-empty
    queryset. *)
Definition avg_mastery (rows : list Progress.t) : pynum :=
  let avg := sql_avg (map Progress.mastery_level rows) in
  if PrimFloat.eqb avg (of_Z 0) then PyInt 0 else PyFloat avg.

(** [[p.content.title for p in rows[:3]]]: the first three rows of the
    ordered query. *)
Definition topic_titles (db : DB) (rows : list Progress.t) : result (list pystr) :=
  mapM (fun p => content ← related Content.id (Progress.content_id p) (contents db);
                 Ok (Content.title content))
       (take 3 (order_by rows)).

(** The sentences about the records of one learning path. *)
Definition progress_sentences (db : DB) (rows : list Progress.t)
    : result (list pystr) :=
  match rows with
  | [] => Ok []
  | _ =>
      let stats :=
        py "Progress: " ++ str_of_Z (count_status rows "completed")
        ++ py " items completed, " ++ str_of_Z (count_status rows "in_progress")
        ++ py " in progress. " ++ py "Average mastery: "
        ++ num_format_0f (avg_mastery rows) ++ py "%." in
      let struggling :=
        List.filter (fun p => PrimFloat.ltb (Progress.mastery_level p) (of_Z 60)) rows in
      let strengths :=
        List.filter (fun p => PrimFloat.leb (of_Z 80) (Progress.mastery_level p)) rows in
      low ← match struggling with
            | [] => Ok []
            | _ => topics ← topic_titles db struggling;
                   Ok [py "Areas needing support: " ++ join (py ", ") topics ++ py "."]
            end;
      high ← match strengths with
             | [] => Ok []
             | _ => topics ← topic_titles db strengths;
                    Ok [py "Strong areas: " ++ join (py ", ") topics ++ py "."]
             end;
      Ok ([stats] ++ low ++ high)
  end.

(** The part of [chat_with_ai_mentor] before the client is called: the
    student, [context_data] and [system_context]. *)
Definition mentor_context (db : DB) (payload : AIMentorChatInputSchema.t)
    : result (Student.t * pydict * option pystr) :=
  student ← get_object_or_404 Student.id
              (AIMentorChatInputSchema.student_id payload) (students db);
  let context_data :=
    [(py "student_grade", JInt (Student.grade_level student));
     (py "student_name", JStr (Student.first_name student))] in
  '(context_data, parts) ←
    match truthy_id (AIMentorChatInputSchema.learning_path_id payload) with
    | Some k =>
        learning_path ← get_object_or_404 LearningPath.id k (learning_paths db);
        subject ← related Subject.id (LearningPath.subject_id learning_path)
                    (subjects db);
        let context_data :=
          dict_set
            (dict_set context_data (py "subject") (JStr (Subject.name subject)))
            (py "difficulty") (JStr (LearningPath.difficulty_level learning_path)) in
        let working :=
          py "The student is working on: '" ++ LearningPath.title learning_path
          ++ py "' " ++ py "(Completion: "
          ++ format_0f (completion_percentage db learning_path) ++ py "%)" in
        sentences ← progress_sentences db (path_progress db student learning_path);
        Ok (context_data, working :: sentences)
    | None => Ok (context_data, [])
    end;
  '(context_data, parts) ←
    match truthy_id (AIMentorChatInputSchema.content_id payload) with
    | Some k =>
        content ← get_object_or_404 Content.id k (contents db);
        let context_data :=
          dict_set
            (dict_set context_data (py "current_content") (JStr (Content.title content)))
            (py "content_type") (JStr (Content.content_type content)) in
        let viewing :=
          py "The student is currently viewing: '" ++ Content.title content
          ++ py "' (" ++ Content.content_type content ++ py "). "
          ++ py "Focus your help on this specific content." in
        Ok (context_data, parts ++ [viewing])
    | None => Ok (context_data, parts)
    end;
  Ok (student, context_data,
      match parts with [] => None | _ => Some (join (py " ") parts) end).

(** The row [AIMentorSession.objects.create(...)] inserts. *)
Definition new_session (db : DB) (student : Student.t)
    (payload : AIMentorChatInputSchema.t) (response_text : pystr)
    (context_data : pydict) : AIMentorSession.t :=
  {| AIMentorSession.id := next_id AIMentorSession.id (mentor_sessions db);
     AIMentorSession.student_id := Student.id student;
     AIMentorSession.learning_path_id :=
       AIMentorChatInputSchema.learning_path_id payload;
     AIMentorSession.session_type := AIMentorChatInputSchema.session_type payload;
     AIMentorSession.query := AIMentorChatInputSchema.query payload;
     AIMentorSession.response := response_text;
     AIMentorSession.context_data := context_data |}.

(** [AIMentorSession.objects.create(...)]: [learning_path_id] is a foreign
    key. *)
Definition create_session (db : DB) (student : Student.t)
    (payload : AIMentorChatInputSchema.t) (response_text : pystr)
    (context_data : pydict) : result (AIMentorSession.t * DB) :=
  if learning_path_known db (AIMentorChatInputSchema.learning_path_id payload) then
    let row := new_session db student payload response_text context_data in
    Ok (row, with_mentor_sessions (mentor_sessions db ++ [row]) db)
  else Err IntegrityError.

(** [POST /ai-mentor/chat]: the stored session, the store after the request
    and the requests sent to the client. *)
Definition chat_with_ai_mentor (client : llm_client) (db : DB)
    (payload : AIMentorChatInputSchema.t)
    : result (AIMentorSession.t * DB * list llm_request) :=
  '(student, context_data, system_context) ← mentor_context db payload;
  let '(response_text, calls) :=
    GrokService.chat client (AIMentorChatInputSchema.query payload)
      system_context context_data in
  '(session, db') ← create_session db student payload response_text context_data;
  Ok (session, db', calls).

End WithHost.

(** ** Learning-path creation ([create_learning_path]) *)

Module LearningPathInputSchema.
Record t : Type := {
  student_id : Z;
  subject_id : Z;
  title : pystr;
  difficulty_level : pystr;
  content_ids : list Z
}.
End LearningPathInputSchema.

Definition with_learning_paths (rows : list LearningPath.t) (db : DB) : DB :=
  {| students := students db; subjects := subjects db; contents := contents db;
     learning_paths := rows;
     content_assignments := content_assignments db;
     assessments := assessments db; progress_records := progress_records db;
     assessment_results := assessment_results db;
     mentor_sessions := mentor_sessions db |}.

Definition with_content_assignments (rows : list ContentAssignment.t) (db : DB) : DB :=
  {| students := students db; subjects := subjects db; contents := contents db;
     learning_paths := learning_paths db;
     content_assignments := rows;
     assessments := assessments db; progress_records := progress_records db;
     assessment_results := assessment_results db;
     mentor_sessions := mentor_sessions db |}.

(** [unique_together = ['learning_path', 'content']] would be violated. *)
Definition assignment_exists (db : DB) (learning_path content : Z) : bool :=
  existsb
    (fun a => (ContentAssignment.learning_path_id a =? learning_path)
              && (ContentAssignment.content_id a =? content))
    (content_assignments db).

(** [unique_together = ['student', 'learning_path', 'content']] would be
    violated. *)
Definition progress_exists (db : DB) (student learning_path content : Z) : bool :=
  existsb
    (fun p => (Progress.student_id p =? student)
              && (Progress.learning_path_id p =? learning_path)
              && (Progress.content_id p =? content))
    (progress_records db).

(** The loop [for order, content_id in enumerate(payload.content_ids,
    start=1)], from position [order] on. *)
Fixpoint assign_content (db : DB) (student learning_path : Z) (order : Z)
    (content_ids : list Z) (now : Z) : result DB :=
  match content_ids with
  | [] => Ok db
  | content_id :: rest =>
      content ← get_object_or_404 Content.id content_id (contents db);
      if assignment_exists db learning_path (Content.id content)
      then Err IntegrityError
      else
        let assignment :=
          {| ContentAssignment.id :=
               next_id ContentAssignment.id (content_assignments db);
             ContentAssignment.learning_path_id := learning_path;
             ContentAssignment.content_id := Content.id content;
             ContentAssignment.order := order |} in
        let db1 :=
          with_content_assignments (content_assignments db ++ [assignment]) db in
        if progress_exists db1 student learning_path (Content.id content)
        then Err IntegrityError
        else
          let progress :=
            Progress.create (next_id Progress.id (progress_records db1))
              student learning_path (Content.id content) now in
          let db2 := with_progress_records (progress_records db1 ++ [progress]) db1 in
          assign_content db2 student learning_path (order + 1) rest now
  end.

Section WithHost.
Context `{Host}.

(** [POST /learning-paths]: the new path, its personalised goals, the store
    after the request and the requests sent to the client.  The handler's
    own [except Exception] around goal generation is never entered:
    [generate_personalized_goals] handles every exception of its [try] block
    itself and nothing before that block can raise on an [int] grade and
    [str] subject. *)
Definition create_learning_path (client : llm_client) (db : DB)
    (payload : LearningPathInputSchema.t) (now : Z)
    : result (LearningPath.t * list pystr * DB * list llm_request) :=
  student ← get_object_or_404 Student.id
              (LearningPathInputSchema.student_id payload) (students db);
  subject ← get_object_or_404 Subject.id
              (LearningPathInputSchema.subject_id payload) (subjects db);
  let '(personalized_goals, calls) :=
    GrokService.generate_personalized_goals client
      (JInt (Student.grade_level student)) (Subject.name subject)
      (LearningPathInputSchema.difficulty_level payload) in
  let learning_path :=
    {| LearningPath.id := next_id LearningPath.id (learning_paths db);
       LearningPath.student_id := Student.id student;
       LearningPath.subject_id := Subject.id subject;
       LearningPath.title := LearningPathInputSchema.title payload;
       LearningPath.difficulty_level :=
         LearningPathInputSchema.difficulty_level payload |} in
  let db1 := with_learning_paths (learning_paths db ++ [learning_path]) db in
  db2 ← assign_content db1 (Student.id student) (LearningPath.id learning_path) 1
          (LearningPathInputSchema.content_ids payload) now;
  Ok (learning_path, personalized_goals, db2, calls).

End WithHost.

(** ** Specification-level definitions *)

(** A question whose identifier is in the answer map with a value different
    from the key. *)
Definition answered_incorrectly (answers : gmap pystr json)
    (question : Question.t) : bool :=
  match answers !! question_id question with
  | Some answer => negb (json_eqb answer (Question.correct_answer question))
  | None => false
  end.

(** A question whose identifier is not in the answer map. *)
Definition unanswered (answers : gmap pystr json) (question : Question.t) : bool :=
  bool_decide (answers !! question_id question = None).

(** The missed list as the specification words it: answered incorrectly or
    left unanswered, in question order. *)
Definition missed_or_unanswered (questions : list Question.t)
    (answers : gmap pystr json) : list pystr :=
  map question_text
    (List.filter (fun q => answered_incorrectly answers q || unanswered answers q)
       questions).

(** The progress invariant as the specification words it. *)
Definition completed_iff_stamped_and_full (p : Progress.t) : Prop :=
  (Progress.status p = py "completed" <-> Progress.completed_at p <> None)
  /\ (Progress.status p = py "completed"
      -> Progress.completion_percentage p = of_Z 100).

(** The direction of the invariant the code maintains. *)
Definition completed_is_stamped (p : Progress.t) : Prop :=
  Progress.status p = py "completed" -> Progress.completed_at p <> None.

(** One successful request that writes progress: a manual update or an
    assessment submission. *)
Inductive progress_step `{Host} (db : DB) : DB -> Prop :=
  | step_manual progress_id payload now saved title db' :
      update_progress db progress_id payload now = Ok (saved, title, db') ->
      progress_step db db'
  | step_assessment client assessment_id payload now row db' calls :
      submit_assessment client db assessment_id payload now = Ok (row, db', calls) ->
      progress_step db db'.

(** Any sequence of such requests. *)
Inductive progress_steps `{Host} (db : DB) : DB -> Prop :=
  | steps_done : progress_steps db db
  | steps_more db1 db2 :
      progress_step db db1 -> progress_steps db1 db2 -> progress_steps db db2.

(** The lines of a response that pass the bullet test, cleaned, keeping those
    accepted by [keep]. *)
Definition cleaned_goals `{Host} (keep : pystr -> bool) (response : pystr)
    : list pystr :=
  List.filter keep
    (map (fun raw => GrokService.clean_goal (strip raw))
       (List.filter (fun raw => GrokService.is_bullet_line (strip raw))
          (split_on 10%N response))).

(** Goals of more than 10 characters: what the parsing loop keeps. *)
Definition valid_goals `{Host} (response : pystr) : list pystr :=
  cleaned_goals (fun goal => 10 <? Z.of_nat (length goal)) response.

(** Goals that are not shorter than 10 characters: the specification's
    wording of a valid goal. *)
Definition goals_not_shorter_than_10 `{Host} (response : pystr) : list pystr :=
  cleaned_goals (fun goal => 10 <=? Z.of_nat (length goal)) response.

(** [isinstance(student_grade, int) and student_grade >= 1] *)
Definition is_int_at_least_1 (student_grade : json) : Prop :=
  match student_grade with
  | JInt z => 1 <= z
  | JBool b => b = true
  | JNull | JStr _ => False
  end.

(** The four replies of [chat] on an error. *)
Definition chat_fallback_messages : list pystr :=
  [GrokService.timeout_message; GrokService.auth_message;
   GrokService.rate_limit_message; GrokService.generic_message].









(** Two such orders: rows with equal stamps in table order, and rows with
    equal stamps in reverse table order. *)
Fixpoint insert_by_updated_at (p : Progress.t) (sorted : list Progress.t) : list Progress.t :=
  match sorted with
  | [] => [p]
  | q :: rest =>
      if Progress.updated_at q <=? Progress.updated_at p then p :: sorted
      else q :: insert_by_updated_at p rest
  end.

Definition order_by_updated_at_desc (rows : list Progress.t) : list Progress.t :=
  fold_right insert_by_updated_at [] rows.

Definition table_order : QueryOrder :=
  {| order_by := order_by_updated_at_desc |}.






(** The number of hundredths in [round((c / t) * 100, 2)], found among the
    two integers around [10000 * c / t]. *)
Definition hundredths_of_ratio (c t : Z) : option Z :=
  let r := py_round2 (PrimFloat.mul (true_div c t) (of_Z 100)) in
  let lo := 10000 * c / t in
  List.find (fun n => PrimFloat.Leibniz.eqb r (PrimFloat.div (of_Z n) (of_Z 100)))
    [lo; lo + 1].


(** ** Sample data *)

Module Sample.

Definition question (qid key text : string) : Question.t :=
  {| Question.id := JStr (py qid);
     Question.correct_answer := JStr (py key);
     Question.question := Some (py text) |}.

Definition q1 : Question.t := question "q1" "a" "What is 1 + 1?".
Definition q2 : Question.t := question "q2" "b" "What is 2 + 2?".
Definition q3 : Question.t := question "q3" "c" "What is 3 + 3?".
Definition q4 : Question.t := question "q4" "d" "What is 4 + 4?".

(** Scenario A: four questions, passing score 70. *)
Definition quiz : Assessment.t :=
  {| Assessment.id := 1; Assessment.subject_id := 1;
     Assessment.content_id := Some 1; Assessment.title := py "Quiz";
     Assessment.questions := [q1; q2; q3; q4];
     Assessment.passing_score := 70 |}.

(** Scenario A: [q3] answered wrongly, [q4] not answered. *)
Definition answers : gmap pystr json :=
  <[py "q1" := JStr (py "a")]>
    (<[py "q2" := JStr (py "b")]> (<[py "q3" := JStr (py "x")]> ∅)).

(** All four answered correctly. *)
Definition right_answers : gmap pystr json :=
  <[py "q4" := JStr (py "d")]> (<[py "q3" := JStr (py "c")]> answers).

(** An assessment without questions whose threshold is 0. *)
Definition empty_quiz : Assessment.t :=
  {| Assessment.id := 2; Assessment.subject_id := 1;
     Assessment.content_id := None; Assessment.title := py "Empty";
     Assessment.questions := []; Assessment.passing_score := 0 |}.

Definition student : Student.t :=
  {| Student.id := 1; Student.first_name := py "Ada";
     Student.last_name := py "Lovelace"; Student.grade_level := 7 |}.

Definition subject : Subject.t := {| Subject.id := 1; Subject.name := py "Math" |}.

Definition content (k : Z) (title : string) : Content.t :=
  {| Content.id := k; Content.subject_id := 1; Content.title := py title;
     Content.content_type := py "lesson" |}.

Definition path : LearningPath.t :=
  {| LearningPath.id := 1; LearningPath.student_id := 1;
     LearningPath.subject_id := 1; LearningPath.title := py "Algebra";
     LearningPath.difficulty_level := py "beginner" |}.

Definition assignment (k : Z) : ContentAssignment.t :=
  {| ContentAssignment.id := k; ContentAssignment.learning_path_id := 1;
     ContentAssignment.content_id := k; ContentAssignment.order := k |}.

(** The rows [create_learning_path] leaves behind for three content items. *)
Definition fresh_db : DB :=
  {| students := [student]; subjects := [subject];
     contents := [content 1 "Fractions"; content 2 "Decimals"; content 3 "Ratios"];
     learning_paths := [path];
     content_assignments := [assignment 1; assignment 2; assignment 3];
     assessments := [quiz; empty_quiz];
     progress_records :=
       [Progress.create 1 1 1 1 0; Progress.create 2 1 1 2 0;
        Progress.create 3 1 1 3 0];
     assessment_results := []; mentor_sessions := [] |}.

(** Scenario B: two of the three records carry [completed_at]. *)
Definition two_of_three_db : DB :=
  with_progress_records
    [Progress.set_completed_at (Some 10) (Progress.create 1 1 1 1 0);
     Progress.set_completed_at (Some 20) (Progress.create 2 1 1 2 0);
     Progress.create 3 1 1 3 0]
    fresh_db.

Definition only_status (s : string) : ProgressInputSchema.t :=
  {| ProgressInputSchema.status := Some (py s);
     ProgressInputSchema.completion_percentage := None;
     ProgressInputSchema.time_spent_minutes := None;
     ProgressInputSchema.mastery_level := None;
     ProgressInputSchema.score := None |}.

Definition submission (learning_path_id : option Z) (a : gmap pystr json)
    : AssessmentInputSchema.t :=
  {| AssessmentInputSchema.student_id := 1;
     AssessmentInputSchema.learning_path_id := learning_path_id;
     AssessmentInputSchema.answers := a;
     AssessmentInputSchema.started_at := 100;
     AssessmentInputSchema.submitted_at := 700 |}.

Definition question_to_mentor : AIMentorChatInputSchema.t :=
  {| AIMentorChatInputSchema.student_id := 1;
     AIMentorChatInputSchema.learning_path_id := Some 1;
     AIMentorChatInputSchema.content_id := Some 2;
     AIMentorChatInputSchema.session_type := py "help";
     AIMentorChatInputSchema.query := py "How do I add fractions?" |}.

(** A client whose every call fails with the given message. *)
Definition failing_client (message : string) : llm_client :=
  fun _ => Raises {| exc_type := py "APIError"; exc_message := py message |}.

(** A client that answers every call with the given text. *)
Definition answering_client (text : pystr) : llm_client :=
  fun _ => Completion [Some text].

(** Three bulleted goals of exactly ten characters each. *)
Definition three_short_goals : pystr :=
  py "- abcdefghij" ++ [10%N] ++ py "- klmnopqrst" ++ [10%N] ++ py "- uvwxyzabcd".

(** Two usable goals and one that is too short. *)
Definition two_good_goals : pystr :=
  py "- Learn to add fractions" ++ [10%N] ++ py "* Practise long division"
  ++ [10%N] ++ py "- Too short".

(** The store after the student opened the first item at time 50. *)
Definition started_db : DB :=
  match update_progress fresh_db 1 (only_status "in_progress") 50 with
  | Ok (_, _, db') => db'
  | Err _ => fresh_db
  end.

(** ... and then passed the quiz at time 800 while the client was down. *)
Definition graded_db : DB :=
  match submit_assessment (H := ascii_host) (failing_client "connection refused")
          started_db 1 (submission (Some 1) right_answers) 800 with
  | Ok (_, db', _) => db'
  | Err _ => started_db
  end.





End Sample.

(** ** Further specification-level definitions *)

(** A question whose identifier is in the answer map with the value of the
    key. *)
Definition answered_correctly (answers : gmap pystr json)
    (question : Question.t) : bool :=
  match answers !! question_id question with
  | Some answer => json_eqb answer (Question.correct_answer question)
  | None => false
  end.

(** For every [0 <= c <= t] with [t] among the first [bound] positive
    integers, [(c / t) * 100] lies between 0 and 100, is 100 only for
    [c = t], and is 0 only for [c = 0]. *)
Definition ratios_in_range (bound : nat) : bool :=
  forallb
    (fun t => forallb
       (fun c =>
          let f := PrimFloat.mul (true_div (Z.of_nat c) (Z.of_nat t)) (of_Z 100) in
          PrimFloat.leb (of_Z 0) f && PrimFloat.leb f (of_Z 100)
          && Bool.eqb (PrimFloat.Leibniz.eqb f (of_Z 100)) (c =? t)%nat
          && Bool.eqb (PrimFloat.Leibniz.eqb f (of_Z 0)) (c =? 0)%nat)
       (seq 0 (S t)))
    (seq 1 bound).

(** Every fixed reply of [chat]. *)
Definition chat_fixed_messages : list pystr :=
  [GrokService.empty_query_message; GrokService.refusal_message;
   GrokService.timeout_message; GrokService.auth_message;
   GrokService.rate_limit_message; GrokService.generic_message].

(** The phrases [chat] treats as a refusal. *)
Definition refusal_phrases : list pystr :=
  [py "i cannot"; py "i'm unable to"; py "against my programming"].

(** Every assignment and progress row belongs to a stored learning path. *)
Definition rows_belong_to_paths (db : DB) : Prop :=
  (forall a, In a (content_assignments db) ->
     find_by_id LearningPath.id (ContentAssignment.learning_path_id a)
       (learning_paths db) <> None)
  /\ (forall p, In p (progress_records db) ->
       find_by_id LearningPath.id (Progress.learning_path_id p)
         (learning_paths db) <> None).

(** The columns of an assignment that [create_learning_path] chooses. *)
Definition assignment_key (a : ContentAssignment.t) : Z * Z * Z :=
  (ContentAssignment.learning_path_id a, ContentAssignment.content_id a,
   ContentAssignment.order a).

(** The columns of a progress row that [create_learning_path] chooses. *)
Definition progress_key (p : Progress.t) : Z * Z * Z * pystr :=
  (Progress.student_id p, Progress.learning_path_id p, Progress.content_id p,
   Progress.status p).

(** How a stored progress row may change: it keeps its primary key and its
    (student, learning path, content) triple, a start stamp that was set is
    kept, and a completion stamp that was set is still set. *)
Definition row_evolves (p p' : Progress.t) : Prop :=
  Progress.id p' = Progress.id p
  /\ Progress.student_id p' = Progress.student_id p
  /\ Progress.learning_path_id p' = Progress.learning_path_id p
  /\ Progress.content_id p' = Progress.content_id p
  /\ (forall t, Progress.started_at p = Some t -> Progress.started_at p' = Some t)
  /\ (Progress.completed_at p <> None -> Progress.completed_at p' <> None).

(** [Progress.STATUS_CHOICES], the stored values. *)
Definition STATUS_CHOICES : list pystr :=
  [py "not_started"; py "in_progress"; py "completed"; py "needs_review"].

(** [enumerate(content_ids, start=order)], content first. *)
Fixpoint numbered_from (order : Z) (content_ids : list Z) : list (Z * Z) :=
  match content_ids with
  | [] => []
  | content_id :: rest => (content_id, order) :: numbered_from (order + 1) rest
  end.

(** The assignment of one numbered content item to a path. *)
Definition assigns (learning_path : Z) (item : Z * Z) (a : ContentAssignment.t) : Prop :=
  assignment_key a = (learning_path, fst item, snd item).

(** The initial progress row of a content item on a path. *)
Definition starts (student learning_path now : Z) (content_id : Z) (p : Progress.t)
    : Prop :=
  exists k, p = Progress.create k student learning_path content_id now.

(** For every [t] among the first [bound] positive integers the number of
    hundredths of [round((c / t) * 100, 2)] is 0 at [c = 0], 10000 at
    [c = t], below 10000 before, and does not decrease from [c] to [c + 1]. *)
Definition hundredths_increase (bound : nat) : bool :=
  forallb
    (fun t =>
       match hundredths_of_ratio 0 (Z.of_nat t),
             hundredths_of_ratio (Z.of_nat t) (Z.of_nat t) with
       | Some none, Some all => (none =? 0) && (all =? 10000)
       | _, _ => false
       end
       && forallb
            (fun c =>
               match hundredths_of_ratio (Z.of_nat c) (Z.of_nat t),
                     hundredths_of_ratio (Z.of_nat (S c)) (Z.of_nat t) with
               | Some n, Some n' => (n <=? n') && (n <? 10000)
               | _, _ => false
               end)
            (seq 0 t))
    (seq 1 bound).

(** Sample requests for the further properties. *)
Module MoreSamples.

Definition new_path : LearningPathInputSchema.t :=
  {| LearningPathInputSchema.student_id := 1;
     LearningPathInputSchema.subject_id := 1;
     LearningPathInputSchema.title := py "Geometry";
     LearningPathInputSchema.difficulty_level := py "intermediate";
     LearningPathInputSchema.content_ids := [3; 1] |}.

Definition blank_question : AIMentorChatInputSchema.t :=
  {| AIMentorChatInputSchema.student_id := 1;
     AIMentorChatInputSchema.learning_path_id := None;
     AIMentorChatInputSchema.content_id := None;
     AIMentorChatInputSchema.session_type := py "help";
     AIMentorChatInputSchema.query := py "   " |}.

(** A client whose completion carries no text. *)
Definition silent_client : llm_client := fun _ => Completion [None].

End MoreSamples.

(** * Properties *)

(** ** Grading engine *)

Lemma questions_missed_from (answers : gmap pystr json) (questions : list Question.t)
    (missed : list pystr) :
  fold_left
    (fun missed question =>
       match answers !! question_id question with
       | Some answer =>
           if negb (json_eqb answer (Question.correct_answer question))
           then missed ++ [question_text question]
           else missed
       | None => missed
       end)
    questions missed
  = missed ++ map question_text (List.filter (answered_incorrectly answers) questions).
Proof.
  revert missed.
  induction questions as [|q questions IH]; intros missed; simpl.
  - by rewrite app_nil_r.
  - rewrite IH. unfold answered_incorrectly.
    destruct (answers !! question_id q) as [answer|]; [|done].
    destruct (json_eqb answer (Question.correct_answer q)); simpl; [done|].
    by rewrite <- app_assoc.
Qed.

(** C1 (as the code has it): the missed-question list holds, in question
    order, the text of exactly the questions whose identifier is in the
    answer map with a value different from the key; a question that was not
    answered is not listed.  In scenario A the score is 50.0, the submission
    does not pass, and the missed list is [[text(q3)]]. *)
Theorem missed_list_is_answered_incorrectly :
  (forall (questions : list Question.t) (answers : gmap pystr json),
      questions_missed questions answers
      = map question_text (List.filter (answered_incorrectly answers) questions))
  /\ score (Assessment.questions Sample.quiz) Sample.answers = PyFloat (of_Z 50)
  /\ passed Sample.quiz Sample.answers = false
  /\ questions_missed (Assessment.questions Sample.quiz) Sample.answers
     = [question_text Sample.q3].
Proof.
  split; [|by vm_compute].
  intros questions answers. unfold questions_missed.
  by rewrite questions_missed_from.
Qed.

(** C1 (as stated) fails in scenario A: the words of the claim give
    [[text(q3), text(q4)]], the code gives a list without [text(q4)]. *)
Lemma scenario_A_omits_the_unanswered_question :
  missed_or_unanswered (Assessment.questions Sample.quiz) Sample.answers
  = [question_text Sample.q3; question_text Sample.q4]
  /\ questions_missed (Assessment.questions Sample.quiz) Sample.answers
     <> [question_text Sample.q3; question_text Sample.q4].
Proof.
  split; [by vm_compute|].
  vm_compute. intros E. discriminate E.
Qed.

(** C3 (as the code has it): an assessment without questions scores exactly
    the integer 0, and passes exactly when its passing score is at most 0. *)
Theorem empty_assessment_scores_zero (assessment : Assessment.t)
    (answers : gmap pystr json) :
  Assessment.questions assessment = [] ->
  score (Assessment.questions assessment) answers = PyInt 0
  /\ passed assessment answers = (Assessment.passing_score assessment <=? 0).
Proof.
  intros E. unfold passed. rewrite E. done.
Qed.

Lemma empty_assessment_scores_zero_witness :
  Assessment.questions Sample.empty_quiz = []
  /\ score (Assessment.questions Sample.empty_quiz) Sample.answers = PyInt 0
  /\ passed Sample.empty_quiz Sample.answers = true.
Proof.
  split; [reflexivity|].
  apply (empty_assessment_scores_zero Sample.empty_quiz Sample.answers).
  reflexivity.
Defined.

(** C3 (as stated) fails for a passing score of 0: the empty assessment is
    passed. *)
Lemma empty_assessment_with_threshold_0_passes :
  Assessment.questions Sample.empty_quiz = []
  /\ Assessment.passing_score Sample.empty_quiz <= 0
  /\ passed Sample.empty_quiz Sample.answers <> false.
Proof.
  split; [reflexivity|]. split; [by vm_compute|].
  vm_compute. intros E. discriminate E.
Qed.

(** ** Path completion aggregator *)

Lemma hundredths_of_ratio_sound (c t n : Z) :
  hundredths_of_ratio c t = Some n ->
  py_round2 (PrimFloat.mul (true_div c t) (of_Z 100))
  = PrimFloat.div (of_Z n) (of_Z 100).
Proof.
  unfold hundredths_of_ratio. intros E.
  apply find_some in E as [_ E].
  by apply FloatAxioms.Leibniz.eqb_spec in E.
Qed.




(** Division comes first: 23 of 160 is 14.375 exactly, yet the quotient
    computed in binary64 lies just below it and the result is 14.37. *)
Example tie_23_of_160 :
  py_round2 (PrimFloat.mul (true_div 23 160) (of_Z 100))
  = PrimFloat.div (of_Z 1437) (of_Z 100).
Proof. vm_compute. reflexivity. Qed.




(** ** Strings and queries: basic facts *)

Lemma str_eqb_eq (a b : pystr) : str_eqb a b = true <-> a = b.
Proof.
  revert b. induction a as [|x a IH]; intros [|y b]; simpl; try done.
  rewrite andb_true_iff, N.eqb_eq, IH. split.
  - by intros [-> ->].
  - intros E. by inversion E.
Qed.

Lemma str_eqb_refl (a : pystr) : str_eqb a a = true.
Proof. by apply str_eqb_eq. Qed.

Lemma find_by_id_Some {A : Type} (pk : A -> Z) (k : Z) (rows : list A) (r : A) :
  find_by_id pk k rows = Some r -> In r rows /\ pk r = k.
Proof.
  unfold find_by_id. intros E. apply find_some in E as [Hin E].
  split; [done|]. by apply Z.eqb_eq.
Qed.

Lemma get_object_or_404_Ok {A : Type} (pk : A -> Z) (k : Z) (rows : list A) (r : A) :
  get_object_or_404 pk k rows = Ok r <-> find_by_id pk k rows = Some r.
Proof.
  unfold get_object_or_404. destruct (find_by_id pk k rows); split; congruence.
Qed.

Lemma related_Ok {A : Type} (pk : A -> Z) (k : Z) (rows : list A) (r : A) :
  related pk k rows = Ok r <-> find_by_id pk k rows = Some r.
Proof.
  unfold related. destruct (find_by_id pk k rows); split; congruence.
Qed.

(** After [save()], looking the row up by its key finds what was saved. *)
Lemma find_saved_progress (rows : list Progress.t) (k : Z) (old new : Progress.t) :
  find_by_id Progress.id k rows = Some old ->
  Progress.id new = k ->
  find_by_id Progress.id k
    (map (fun r => if Progress.id r =? k then new else r) rows) = Some new.
Proof.
  unfold find_by_id. intros Hfind Hnew.
  induction rows as [|r rows IH]; simpl in *; [done|].
  destruct (Progress.id r =? k) eqn:E; simpl.
  - by rewrite Hnew, Z.eqb_refl.
  - rewrite E. by apply IH.
Qed.

(** *** Fields after a manual update *)

(** Case analysis on what a payload carries and on the tests of
    [update_progress]. *)
Ltac payload_cases payload :=
  unfold apply_progress_payload;
  destruct payload as [[[|? ?]|] [?|] [?|] [?|] [?|]]; simpl;
  repeat match goal with |- context [if ?b then _ else _] => destruct b end.

Lemma payload_keeps_id (payload : ProgressInputSchema.t) (now : Z) (p : Progress.t) :
  Progress.id (apply_progress_payload payload now p) = Progress.id p
  /\ Progress.content_id (apply_progress_payload payload now p) = Progress.content_id p.
Proof. by payload_cases payload. Qed.

Lemma payload_status (payload : ProgressInputSchema.t) (now : Z) (p : Progress.t) :
  Progress.status (apply_progress_payload payload now p)
  = match ProgressInputSchema.status payload with
    | Some (c :: s) => c :: s
    | _ => Progress.status p
    end.
Proof. by payload_cases payload. Qed.

Lemma payload_started_at (payload : ProgressInputSchema.t) (now : Z) (p : Progress.t) :
  Progress.started_at (apply_progress_payload payload now p)
  = match ProgressInputSchema.status payload with
    | Some (c :: s) =>
        if str_eqb (c :: s) (py "in_progress")
           && bool_decide (Progress.started_at p = None)
        then Some now else Progress.started_at p
    | _ => Progress.started_at p
    end.
Proof. by payload_cases payload. Qed.

Lemma payload_completed_at (payload : ProgressInputSchema.t) (now : Z) (p : Progress.t) :
  Progress.completed_at (apply_progress_payload payload now p)
  = match ProgressInputSchema.status payload with
    | Some (c :: s) =>
        if str_eqb (c :: s) (py "in_progress")
           && bool_decide (Progress.started_at p = None)
        then Progress.completed_at p
        else if str_eqb (c :: s) (py "completed")
                && bool_decide (Progress.completed_at p = None)
        then Some now else Progress.completed_at p
    | _ => Progress.completed_at p
    end.
Proof. by payload_cases payload. Qed.

Lemma payload_optional_fields (payload : ProgressInputSchema.t) (now : Z)
    (p : Progress.t) :
  Progress.completion_percentage (apply_progress_payload payload now p)
  = default (Progress.completion_percentage p)
      (ProgressInputSchema.completion_percentage payload)
  /\ Progress.time_spent_minutes (apply_progress_payload payload now p)
     = default (Progress.time_spent_minutes p)
         (ProgressInputSchema.time_spent_minutes payload)
  /\ Progress.mastery_level (apply_progress_payload payload now p)
     = default (Progress.mastery_level p) (ProgressInputSchema.mastery_level payload)
  /\ Progress.score (apply_progress_payload payload now p)
     = match ProgressInputSchema.score payload with
       | Some v => Some v
       | None => Progress.score p
       end.
Proof. by payload_cases payload. Qed.

(** ** Progress coordinator: manual update *)

(** A manual update on an existing row succeeds; it saves the row with the
    payload applied, and the row can be fetched again. *)
Lemma update_progress_ok (db : DB) (progress_id : Z)
    (payload : ProgressInputSchema.t) (now : Z) (progress : Progress.t)
    (content : Content.t) :
  get_object_or_404 Progress.id progress_id (progress_records db) = Ok progress ->
  related Content.id (Progress.content_id progress) (contents db) = Ok content ->
  let saved := Progress.set_updated_at now (apply_progress_payload payload now progress) in
  let db' := save_progress (apply_progress_payload payload now progress) now db in
  update_progress db progress_id payload now = Ok (saved, Content.title content, db')
  /\ get_object_or_404 Progress.id progress_id (progress_records db') = Ok saved
  /\ related Content.id (Progress.content_id saved) (contents db') = Ok content.
Proof.
  intros Hget Hcontent saved db'.
  destruct (payload_keeps_id payload now progress) as [Hid Hcid].
  assert (Hfind := proj1 (get_object_or_404_Ok _ _ _ _) Hget).
  destruct (find_by_id_Some _ _ _ _ Hfind) as [_ Hk].
  split; [|split].
  - unfold update_progress. rewrite Hget. simpl.
    rewrite Hcid, Hcontent. reflexivity.
  - apply get_object_or_404_Ok. subst db'. unfold save_progress. simpl.
    rewrite Hid, Hk.
    apply (find_saved_progress _ _ progress); [done|].
    simpl. by rewrite Hid.
  - subst saved db'. simpl. by rewrite Hcid.
Qed.

(** C6: a manual update of an existing record leaves each of
    [completion_percentage], [time_spent_minutes], [mastery_level] and
    [score] as it was when the payload does not carry it; [started_at] is
    stamped when the payload's status is ["in_progress"] and the stamp is
    unset, and is unchanged otherwise, so a second update with status
    ["in_progress"] keeps the first stamp. *)
Theorem manual_update_keeps_absent_fields (db : DB) (progress_id : Z)
    (payload : ProgressInputSchema.t) (now : Z) (progress : Progress.t)
    (content : Content.t) :
  get_object_or_404 Progress.id progress_id (progress_records db) = Ok progress ->
  related Content.id (Progress.content_id progress) (contents db) = Ok content ->
  exists (saved : Progress.t) (db' : DB),
    update_progress db progress_id payload now = Ok (saved, Content.title content, db')
    /\ get_object_or_404 Progress.id progress_id (progress_records db') = Ok saved
    /\ (ProgressInputSchema.completion_percentage payload = None ->
        Progress.completion_percentage saved = Progress.completion_percentage progress)
    /\ (ProgressInputSchema.time_spent_minutes payload = None ->
        Progress.time_spent_minutes saved = Progress.time_spent_minutes progress)
    /\ (ProgressInputSchema.mastery_level payload = None ->
        Progress.mastery_level saved = Progress.mastery_level progress)
    /\ (ProgressInputSchema.score payload = None ->
        Progress.score saved = Progress.score progress)
    /\ (ProgressInputSchema.status payload = Some (py "in_progress") ->
        Progress.started_at progress = None ->
        Progress.started_at saved = Some now)
    /\ (Progress.started_at progress <> None ->
        Progress.started_at saved = Progress.started_at progress)
    /\ (ProgressInputSchema.status payload <> Some (py "in_progress") ->
        Progress.started_at saved = Progress.started_at progress)
    /\ (forall (payload2 : ProgressInputSchema.t) (now2 : Z),
          ProgressInputSchema.status payload = Some (py "in_progress") ->
          Progress.started_at progress = None ->
          ProgressInputSchema.status payload2 = Some (py "in_progress") ->
          exists (saved2 : Progress.t) (db2 : DB),
            update_progress db' progress_id payload2 now2
            = Ok (saved2, Content.title content, db2)
            /\ Progress.started_at saved2 = Some now).
Proof.
  intros Hget Hcontent.
  destruct (update_progress_ok db progress_id payload now progress content
              Hget Hcontent) as (Hrun & Hget' & Hcontent').
  destruct (payload_optional_fields payload now progress) as (Hcp & Hts & Hml & Hsc).
  pose proof (payload_started_at payload now progress) as Hst.
  eexists _, _. split; [exact Hrun|]. split; [exact Hget'|].
  simpl. repeat split.
  - intros E. by rewrite Hcp, E.
  - intros E. by rewrite Hts, E.
  - intros E. by rewrite Hml, E.
  - intros E. by rewrite Hsc, E.
  - intros E1 E2. rewrite Hst, E1, E2. reflexivity.
  - intros E. rewrite Hst.
    destruct (ProgressInputSchema.status payload) as [[|c s]|]; try done.
    rewrite bool_decide_eq_false_2 by done. by rewrite andb_false_r.
  - intros E. rewrite Hst.
    destruct (ProgressInputSchema.status payload) as [[|c s]|]; try done.
    destruct (str_eqb (c :: s) (py "in_progress")) eqn:Eq; [|done].
    apply str_eqb_eq in Eq. congruence.
  - intros payload2 now2 E1 E2 E3.
    destruct (update_progress_ok _ progress_id payload2 now2 _ content
                Hget' Hcontent') as (Hrun2 & _ & _).
    eexists _, _. split; [exact Hrun2|].
    simpl. rewrite payload_started_at, E3. simpl.
    rewrite Hst, E1, E2. reflexivity.
Qed.

Lemma manual_update_keeps_absent_fields_witness :
  exists (saved : Progress.t) (db' : DB),
    update_progress Sample.fresh_db 1 (Sample.only_status "in_progress") 50
    = Ok (saved, py "Fractions", db')
    /\ Progress.started_at saved = Some 50
    /\ Progress.mastery_level saved = of_Z 0
    /\ exists (saved2 : Progress.t) (db2 : DB),
         update_progress db' 1 (Sample.only_status "in_progress") 60
         = Ok (saved2, py "Fractions", db2)
         /\ Progress.started_at saved2 = Some 50.
Proof.
  destruct (manual_update_keeps_absent_fields Sample.fresh_db 1
              (Sample.only_status "in_progress") 50
              (Progress.create 1 1 1 1 0) (Sample.content 1 "Fractions")
              eq_refl eq_refl)
    as (saved & db' & Hrun & _ & _ & _ & Hml & _ & Hst & _ & _ & Hagain).
  exists saved, db'. split; [exact Hrun|].
  split; [exact (Hst eq_refl eq_refl)|].
  split; [exact (Hml eq_refl)|].
  exact (Hagain (Sample.only_status "in_progress") 60 eq_refl eq_refl eq_refl).
Defined.

(** ** Progress coordinator: the status invariant *)

Lemma payload_keeps_stamped (payload : ProgressInputSchema.t) (now : Z)
    (p : Progress.t) :
  completed_is_stamped p ->
  completed_is_stamped (apply_progress_payload payload now p).
Proof.
  unfold completed_is_stamped.
  rewrite payload_status, payload_completed_at.
  destruct (ProgressInputSchema.status payload) as [[|c s]|]; try done.
  intros _ Hcompleted.
  destruct (str_eqb (c :: s) (py "in_progress")) eqn:Ein.
  { apply str_eqb_eq in Ein. rewrite Hcompleted in Ein. discriminate Ein. }
  rewrite Hcompleted, str_eqb_refl. simpl.
  destruct (bool_decide_reflect (Progress.completed_at p = None)); done.
Qed.

Lemma assessment_outcome_keeps_stamped (s : pynum) (pass : bool) (now : Z)
    (p : Progress.t) :
  completed_is_stamped (apply_assessment_outcome s pass now p).
Proof.
  unfold completed_is_stamped, apply_assessment_outcome.
  destruct pass; simpl; [done|].
  intros E. discriminate E.
Qed.

Lemma save_keeps_stamped (p : Progress.t) (now : Z) (db : DB) :
  completed_is_stamped p ->
  Forall completed_is_stamped (progress_records db) ->
  Forall completed_is_stamped (progress_records (save_progress p now db)).
Proof.
  intros Hp Hall. unfold save_progress. simpl.
  apply List.Forall_forall. intros r Hin.
  apply in_map_iff in Hin as (r0 & <- & Hin0).
  destruct (Progress.id r0 =? Progress.id p); [exact Hp|].
  rewrite List.Forall_forall in Hall. by apply Hall.
Qed.

Lemma update_progress_from_assessment_keeps_stamped (db db' : DB)
    (student : Student.t) (assessment : Assessment.t) (learning_path_id : option Z)
    (s : pynum) (pass : bool) (now : Z) :
  update_progress_from_assessment db student assessment learning_path_id s pass now
  = Ok db' ->
  Forall completed_is_stamped (progress_records db) ->
  Forall completed_is_stamped (progress_records db').
Proof.
  unfold update_progress_from_assessment. intros Hrun Hall.
  destruct (truthy_id learning_path_id) as [l|]; [|by inversion Hrun; subst].
  destruct (Assessment.content_id assessment) as [c|]; [|by inversion Hrun; subst].
  destruct (related Content.id c (contents db)) as [content|]; [|done].
  simpl in Hrun.
  destruct (matching_progress db (Student.id student) l (Content.id content))
    as [|p [|? ?]]; inversion Hrun; subst; [done|].
  apply save_keeps_stamped; [|done].
  apply assessment_outcome_keeps_stamped.
Qed.

(** What a successful submission went through. *)
Lemma submit_assessment_Ok `{Host} (client : llm_client) (db db' : DB)
    (assessment_id : Z) (payload : AssessmentInputSchema.t) (now : Z)
    (row : AssessmentResult.t) (calls : list llm_request) :
  submit_assessment client db assessment_id payload now = Ok (row, db', calls) ->
  exists (assessment : Assessment.t) (student : Student.t) (subject : Subject.t)
         (db1 : DB),
    get_object_or_404 Assessment.id assessment_id (assessments db) = Ok assessment
    /\ get_object_or_404 Student.id (AssessmentInputSchema.student_id payload)
         (students db) = Ok student
    /\ related Subject.id (Assessment.subject_id assessment) (subjects db) = Ok subject
    /\ progress_records db1 = progress_records db
    /\ contents db1 = contents db
    /\ update_progress_from_assessment db1 student assessment
         (AssessmentInputSchema.learning_path_id payload)
         (score (Assessment.questions assessment) (AssessmentInputSchema.answers payload))
         (passed assessment (AssessmentInputSchema.answers payload)) now
       = Ok db'.
Proof.
  unfold submit_assessment, mbind, result_bind. intros Hrun.
  destruct (get_object_or_404 Assessment.id _ _) as [assessment|] eqn:Hassessment;
    [|done].
  destruct (get_object_or_404 Student.id _ _) as [student|] eqn:Hstudent; [|done].
  destruct (related Subject.id _ _) as [subject|] eqn:Hsubject; [|done].
  destruct (GrokService.generate_assessment_feedback _ _ _ _) as [feedback sent].
  destruct (create_assessment_result _ _ _ _ _ _ _) as [[row1 db1]|] eqn:Hcreate;
    [|done].
  destruct (update_progress_from_assessment db1 _ _ _ _ _ _) as [db2|] eqn:Hupdate;
    [|done].
  inversion Hrun; subst.
  exists assessment, student, subject, db1.
  assert (Hsame : progress_records db1 = progress_records db
                  /\ contents db1 = contents db).
  { unfold create_assessment_result in Hcreate.
    destruct feedback; [|done].
    destruct (learning_path_known _ _); [|done].
    by inversion Hcreate; subst. }
  destruct Hsame as [Hrows Hcontents].
  done.
Qed.

Lemma progress_step_keeps_stamped `{Host} (db db' : DB) :
  progress_step db db' ->
  Forall completed_is_stamped (progress_records db) ->
  Forall completed_is_stamped (progress_records db').
Proof.
  intros Hstep Hall.
  destruct Hstep as [progress_id payload now saved title db' Hrun
                    |client assessment_id payload now row db' calls Hrun].
  - unfold update_progress, mbind, result_bind in Hrun.
    destruct (get_object_or_404 Progress.id progress_id (progress_records db))
      as [progress|] eqn:Hget; [|done].
    destruct (related Content.id _ _) as [content|]; [|done].
    inversion Hrun; subst.
    apply save_keeps_stamped; [|done].
    apply payload_keeps_stamped.
    apply get_object_or_404_Ok, find_by_id_Some in Hget as [Hin _].
    rewrite List.Forall_forall in Hall. by apply Hall.
  - apply submit_assessment_Ok in Hrun
      as (assessment & student & subject & db1 & _ & _ & _ & Hrows & _ & Hupdate).
    apply (update_progress_from_assessment_keeps_stamped _ _ _ _ _ _ _ _ Hupdate).
    by rewrite Hrows.
Qed.

(** C2 (as the code has it): a freshly created record is not completed; if
    in every record status ["completed"] comes with [completed_at] set, the
    same holds after any sequence of successful manual updates and
    assessment submissions; and a passing assessment-driven update leaves the
    record completed, stamped with the time of the update and with
    [completion_percentage] 100. *)
Theorem completed_records_stay_stamped `{Host} :
  (forall new_id student learning_path content now : Z,
      completed_is_stamped (Progress.create new_id student learning_path content now))
  /\ (forall db db' : DB,
        Forall completed_is_stamped (progress_records db) ->
        progress_steps db db' ->
        Forall completed_is_stamped (progress_records db'))
  /\ (forall (s : pynum) (now : Z) (p : Progress.t),
        let p' := apply_assessment_outcome s true now p in
        Progress.status p' = py "completed"
        /\ Progress.completed_at p' = Some now
        /\ Progress.completion_percentage p' = of_Z 100).
Proof.
  split; [|split].
  - intros new_id student learning_path content now E. discriminate E.
  - intros db db' Hall Hsteps.
    induction Hsteps as [|db db1 db2 Hstep _ IH]; [done|].
    apply IH. by apply (progress_step_keeps_stamped db).
  - done.
Qed.

Lemma completed_records_stay_stamped_witness :
  Forall completed_is_stamped (progress_records Sample.fresh_db)
  /\ progress_steps (H := ascii_host) Sample.fresh_db Sample.graded_db
  /\ Forall completed_is_stamped (progress_records Sample.graded_db).
Proof.
  destruct (completed_records_stay_stamped (H := ascii_host))
    as (Hfresh & Hsteps & _).
  assert (Hinit : Forall completed_is_stamped (progress_records Sample.fresh_db))
    by (repeat constructor; apply Hfresh).
  assert (Hrun : progress_steps (H := ascii_host) Sample.fresh_db Sample.graded_db).
  { eapply steps_more.
    - eapply (step_manual _ 1 (Sample.only_status "in_progress") 50).
      vm_compute. reflexivity.
    - eapply steps_more; [|apply steps_done].
      eapply (step_assessment _ (Sample.failing_client "connection refused") 1
                (Sample.submission (Some 1) Sample.right_answers) 800).
      vm_compute. reflexivity. }
  split; [exact Hinit|]. split; [exact Hrun|].
  exact (Hsteps _ _ Hinit Hrun).
Defined.

(** C2 (as stated) fails: a manual update to ["completed"] stamps
    [completed_at] but leaves [completion_percentage] at 0, and a later
    manual update to ["in_progress"] leaves [completed_at] set on a record
    that is no longer completed. *)
Lemma manual_updates_break_the_stated_invariant :
  match update_progress Sample.fresh_db 1 (Sample.only_status "completed") 5 with
  | Ok (saved, _, db1) =>
      ~ completed_iff_stamped_and_full saved
      /\ match update_progress db1 1 (Sample.only_status "in_progress") 6 with
         | Ok (saved2, _, _) => ~ completed_iff_stamped_and_full saved2
         | Err _ => False
         end
  | Err _ => False
  end.
Proof.
  vm_compute. split.
  - intros [_ Hfull]. specialize (Hfull eq_refl).
    apply (f_equal Prim2SF) in Hfull. vm_compute in Hfull. discriminate Hfull.
  - intros [[_ Hstamped] _].
    assert (E : Some 5 <> @None Z) by discriminate.
    apply Hstamped in E. discriminate E.
Qed.

(** ** Progress coordinator: assessment-driven update *)

Lemma save_progress_records (p : Progress.t) (now : Z) (db : DB) :
  progress_records (save_progress p now db)
  = map (fun r => if Progress.id r =? Progress.id p
                  then Progress.set_updated_at now p else r)
      (progress_records db).
Proof. reflexivity. Qed.




(** ** Goal generation *)

Section Goals.
Context `{Host}.

Lemma parse_goals_from (lines : list pystr) (goals : list pystr) :
  fold_left GrokService.parse_step lines goals
  = goals
    ++ List.filter (fun goal => 10 <? Z.of_nat (length goal))
         (map (fun raw => GrokService.clean_goal (strip raw))
            (List.filter (fun raw => GrokService.is_bullet_line (strip raw)) lines)).
Proof.
  revert goals.
  induction lines as [|raw lines IH]; intros goals; simpl.
  - by rewrite app_nil_r.
  - rewrite IH. unfold GrokService.parse_step.
    destruct (GrokService.is_bullet_line (strip raw)); simpl; [|done].
    destruct (10 <? Z.of_nat (length (GrokService.clean_goal (strip raw)))) eqn:Elen.
    + rewrite bool_decide_eq_true_2.
      * simpl. by rewrite <- app_assoc.
      * intros E. rewrite E in Elen. discriminate Elen.
    + by rewrite andb_false_r.
Qed.

(** The parsing loop computes the goals of more than 10 characters. *)
Lemma parse_goals_valid (response : pystr) :
  GrokService.parse_goals response = valid_goals response.
Proof.
  unfold GrokService.parse_goals, valid_goals, cleaned_goals.
  by rewrite parse_goals_from.
Qed.

Lemma valid_goals_are_long (response goal : pystr) :
  In goal (valid_goals response) -> 10 < Z.of_nat (length goal).
Proof.
  unfold valid_goals, cleaned_goals. intros Hin.
  apply filter_In in Hin as [_ Hlen]. by apply Z.ltb_lt.
Qed.

Lemma grade_invalid_iff (student_grade : json) :
  GrokService.grade_invalid student_grade = true <-> ~ is_int_at_least_1 student_grade.
Proof.
  destruct student_grade as [|[|]|z|s]; simpl.
  - split; [tauto|done].
  - split; [done|]. intros E. by destruct E.
  - split; [|done]. intros _ E. discriminate E.
  - rewrite Z.ltb_lt. lia.
  - split; [tauto|done].
Qed.

(** C7 (as the code has it): when the client answers a valid request with a
    non-blank text, the lines that pass the bullet test are cleaned, cleaned
    items of 10 characters or fewer are discarded, and the result is the
    first 5 remaining goals if at least 3 remain and the 4-goal fallback for
    the subject and difficulty otherwise; with 2 remaining goals it is the
    fallback. *)
Theorem goals_are_parsed_or_replaced (client : llm_client) (student_grade : json)
    (subject difficulty response : pystr) (others : list (option pystr)) :
  subject <> [] ->
  is_int_at_least_1 student_grade ->
  client (GrokService.goals_request student_grade subject difficulty)
  = Completion (Some response :: others) ->
  strip response <> [] ->
  let goals := valid_goals response in
  let fallback := GrokService._get_fallback_goals subject difficulty in
  let returned :=
    fst (GrokService.generate_personalized_goals client student_grade subject
           difficulty) in
  GrokService.parse_goals response = goals
  /\ (forall goal, In goal goals -> 10 < Z.of_nat (length goal))
  /\ (3 <= Z.of_nat (length goals) ->
      returned = take 5 goals /\ Z.of_nat (length returned) <= 5)
  /\ (Z.of_nat (length goals) < 3 -> returned = fallback)
  /\ (length goals = 2%nat -> returned = fallback)
  /\ length fallback = 4%nat.
Proof.
  intros Hsubject Hgrade Hclient Hresponse goals fallback returned.
  assert (Hreturned :
    returned = if 3 <=? Z.of_nat (length goals) then take 5 goals else fallback).
  { subst returned. unfold GrokService.generate_personalized_goals.
    rewrite bool_decide_eq_false_2 by done.
    destruct (GrokService.grade_invalid student_grade) eqn:Einvalid.
    { apply grade_invalid_iff in Einvalid. done. }
    simpl. rewrite Hclient. unfold GrokService.goals_from_choices.
    rewrite bool_decide_eq_false_2 by done.
    rewrite parse_goals_valid. fold goals.
    by destruct (3 <=? Z.of_nat (length goals)). }
  split; [apply parse_goals_valid|].
  split; [apply valid_goals_are_long|].
  split; [|split; [|split]].
  - intros Hlen. rewrite Hreturned.
    destruct (Z.leb_spec 3 (Z.of_nat (length goals))); [|lia].
    split; [done|]. rewrite length_take. lia.
  - intros Hlen. rewrite Hreturned.
    destruct (Z.leb_spec 3 (Z.of_nat (length goals))); [lia|done].
  - intros Hlen. rewrite Hreturned, Hlen. reflexivity.
  - reflexivity.
Qed.

(** C10: with an empty subject, or a grade that is not an integer of at
    least 1, goal generation returns the 4-goal fallback for the subject and
    difficulty and sends nothing to the client. *)
Theorem invalid_goal_inputs_skip_the_client (client : llm_client)
    (student_grade : json) (subject difficulty : pystr) :
  subject = [] \/ ~ is_int_at_least_1 student_grade ->
  GrokService.generate_personalized_goals client student_grade subject difficulty
  = (GrokService._get_fallback_goals subject difficulty, [])
  /\ length (GrokService._get_fallback_goals subject difficulty) = 4%nat.
Proof.
  intros Hinvalid. split; [|reflexivity].
  unfold GrokService.generate_personalized_goals.
  destruct Hinvalid as [->|Hgrade]; [done|].
  apply grade_invalid_iff in Hgrade. rewrite Hgrade.
  by rewrite orb_true_r.
Qed.

End Goals.

Lemma goals_are_parsed_or_replaced_witness :
  py "Math" <> []
  /\ is_int_at_least_1 (JInt 7)
  /\ strip Sample.two_good_goals <> []
  /\ length (valid_goals (H := ascii_host) Sample.two_good_goals) = 2%nat
  /\ fst (GrokService.generate_personalized_goals (H := ascii_host)
            (Sample.answering_client Sample.two_good_goals)
            (JInt 7) (py "Math") (py "beginner"))
     = GrokService._get_fallback_goals (py "Math") (py "beginner").
Proof.
  assert (Hsubject : py "Math" <> []) by (vm_compute; discriminate).
  assert (Hgrade : is_int_at_least_1 (JInt 7)) by (simpl; lia).
  assert (Hresponse : strip Sample.two_good_goals <> []) by (vm_compute; discriminate).
  assert (Htwo : length (valid_goals (H := ascii_host) Sample.two_good_goals) = 2%nat)
    by (vm_compute; reflexivity).
  split; [exact Hsubject|]. split; [exact Hgrade|].
  split; [exact Hresponse|]. split; [exact Htwo|].
  destruct (goals_are_parsed_or_replaced (H := ascii_host)
              (Sample.answering_client Sample.two_good_goals) (JInt 7)
              (py "Math") (py "beginner") Sample.two_good_goals []
              Hsubject Hgrade eq_refl Hresponse)
    as (_ & _ & _ & _ & Hfallback & _).
  exact (Hfallback Htwo).
Defined.

(** C7 (as stated) fails on three bulleted goals of exactly 10 characters:
    none of them is shorter than 10 characters, so at least 3 goals remain
    in the words of the claim, yet the code discards them and returns the
    fallback. *)
Lemma three_goals_of_ten_characters_are_replaced :
  let returned :=
    fst (GrokService.generate_personalized_goals (H := ascii_host)
           (Sample.answering_client Sample.three_short_goals)
           (JInt 7) (py "Math") (py "beginner")) in
  length (goals_not_shorter_than_10 (H := ascii_host) Sample.three_short_goals) = 3%nat
  /\ returned = GrokService._get_fallback_goals (py "Math") (py "beginner")
  /\ returned
     <> take 5 (goals_not_shorter_than_10 (H := ascii_host) Sample.three_short_goals).
Proof.
  split; [by vm_compute|]. split; [by vm_compute|].
  vm_compute. intros E. discriminate E.
Qed.

Lemma invalid_goal_inputs_skip_the_client_witness :
  ~ is_int_at_least_1 (JInt 0)
  /\ GrokService.generate_personalized_goals (H := ascii_host)
       (Sample.answering_client Sample.two_good_goals)
       (JInt 0) (py "Math") (py "beginner")
     = (GrokService._get_fallback_goals (py "Math") (py "beginner"), []).
Proof.
  assert (Hgrade : ~ is_int_at_least_1 (JInt 0)) by (simpl; lia).
  split; [exact Hgrade|].
  exact (proj1 (invalid_goal_inputs_skip_the_client (H := ascii_host)
                  (Sample.answering_client Sample.two_good_goals)
                  (JInt 0) (py "Math") (py "beginner") (or_intror Hgrade))).
Defined.

(** ** Mentor orchestrator and context builder *)

(** *** Substrings *)



(** *** Orders of a query *)








Section Mentor.
Context `{Host} {O : QueryOrder}.

(** The reply to an error is one of the four fixed messages. *)
Lemma chat_fallback_is_fixed (e : exn) :
  In (GrokService.chat_fallback e) chat_fallback_messages.
Proof.
  unfold GrokService.chat_fallback, chat_fallback_messages.
  repeat match goal with |- context [if ?b then _ else _] => destruct b end;
    simpl; tauto.
Qed.





(** What [chat] sends depends on the query and the context only. *)
Lemma chat_requests (client : llm_client) (user_message : pystr)
    (system_context : option pystr) (student_context : pydict) :
  snd (GrokService.chat client user_message system_context student_context)
  = if bool_decide (strip user_message = []) then []
    else [GrokService.chat_request user_message system_context student_context].
Proof.
  unfold GrokService.chat.
  by destruct (bool_decide (strip user_message = [])).
Qed.

(** A mentor request whose context can be built and whose learning path, if
    named, exists succeeds and appends one session that records the reply of
    [chat] and the context data. *)
Lemma chat_with_ai_mentor_ok (client : llm_client) (db : DB)
    (payload : AIMentorChatInputSchema.t) (student : Student.t)
    (context_data : pydict) (system_context : option pystr) :
  mentor_context db payload = Ok (student, context_data, system_context) ->
  learning_path_known db (AIMentorChatInputSchema.learning_path_id payload) = true ->
  let reply :=
    GrokService.chat client (AIMentorChatInputSchema.query payload)
      system_context context_data in
  let session := new_session db student payload (fst reply) context_data in
  chat_with_ai_mentor client db payload
  = Ok (session, with_mentor_sessions (mentor_sessions db ++ [session]) db, snd reply).
Proof.
  intros Hcontext Hknown reply session.
  unfold chat_with_ai_mentor, create_session, mbind, result_bind.
  rewrite Hcontext, Hknown.
  fold reply. by destruct reply as [response_text calls].
Qed.





End Mentor.

Section Determinism.
Context `{Host}.







End Determinism.

(** The bundle built for the sample store after one passed quiz, rows with
    equal stamps in table order. *)
Example sample_system_context :
  match mentor_context (H := ascii_host) (O := table_order)
          Sample.graded_db Sample.question_to_mentor with
  | Ok (_, _, system_context) =>
      system_context
      = Some (py "The student is working on: 'Algebra' (Completion: 33%) "
              ++ py "Progress: 1 items completed, 0 in progress. Average mastery: 33%. "
              ++ py "Areas needing support: Decimals, Ratios. Strong areas: Fractions. "
              ++ py "The student is currently viewing: 'Decimals' (lesson). "
              ++ py "Focus your help on this specific content.")
  | Err _ => False
  end.
Proof. vm_compute. reflexivity. Qed.







(** * Further properties *)

(** ** Grading engine: how questions are classified *)

Lemma correct_answers_from (answers : gmap pystr json) (questions : list Question.t)
    (n : Z) :
  fold_left
    (fun n question =>
       match answers !! question_id question with
       | Some answer =>
           if json_eqb answer (Question.correct_answer question) then n + 1 else n
       | None => n
       end)
    questions n
  = n + Z.of_nat (length (List.filter (answered_correctly answers) questions)).
Proof.
  revert n. induction questions as [|q questions IH]; intros n; simpl.
  - lia.
  - rewrite IH. unfold answered_correctly.
    destruct (answers !! question_id q) as [answer|]; [|done].
    destruct (json_eqb answer (Question.correct_answer q)); simpl; lia.
Qed.

Lemma correct_answers_count (questions : list Question.t) (answers : gmap pystr json) :
  correct_answers questions answers
  = Z.of_nat (length (List.filter (answered_correctly answers) questions)).
Proof. unfold correct_answers. by rewrite correct_answers_from. Qed.

Lemma questions_missed_filter (questions : list Question.t)
    (answers : gmap pystr json) :
  questions_missed questions answers
  = map question_text (List.filter (answered_incorrectly answers) questions).
Proof. unfold questions_missed. by rewrite questions_missed_from. Qed.

Lemma classification_partition (answers : gmap pystr json)
    (questions : list Question.t) :
  (length (List.filter (answered_correctly answers) questions)
   + length (List.filter (answered_incorrectly answers) questions)
   + length (List.filter (unanswered answers) questions))%nat
  = length questions.
Proof.
  induction questions as [|q questions IH]; simpl; [done|].
  unfold answered_correctly, answered_incorrectly, unanswered at 1.
  destruct (answers !! question_id q) as [answer|] eqn:E.
  - rewrite bool_decide_eq_false_2 by done.
    destruct (json_eqb answer (Question.correct_answer q)); simpl;
      fold (answered_correctly answers) (answered_incorrectly answers); lia.
  - rewrite bool_decide_eq_true_2 by done. simpl.
    fold (answered_correctly answers) (answered_incorrectly answers). lia.
Qed.

Lemma filter_nothing {A : Type} (f : A -> bool) (l : list A) :
  (forall x, f x = false) -> List.filter f l = [].
Proof.
  intros Hf. induction l as [|x l IH]; simpl; [done|]. by rewrite Hf.
Qed.

(** X1: grading classifies every question exactly once: the number of
    correct answers, the length of the missed list and the number of
    questions whose identifier is not in the answer map add up to the number
    of questions; so the correct answers never outnumber the questions, and
    a submission without any answer has no correct answer and an empty
    missed list. *)
Theorem grading_classifies_each_question_once (questions : list Question.t)
    (answers : gmap pystr json) :
  correct_answers questions answers
    + Z.of_nat (length (questions_missed questions answers))
    + Z.of_nat (length (List.filter (unanswered answers) questions))
  = Z.of_nat (length questions)
  /\ 0 <= correct_answers questions answers <= Z.of_nat (length questions)
  /\ correct_answers questions ∅ = 0
  /\ questions_missed questions ∅ = [].
Proof.
  rewrite correct_answers_count, questions_missed_filter, length_map.
  pose proof (classification_partition answers questions) as Hsum.
  split; [lia|]. split; [lia|].
  rewrite correct_answers_count, questions_missed_filter.
  rewrite (filter_nothing (answered_correctly ∅)), (filter_nothing (answered_incorrectly ∅));
    [done| |].
  - intros q. unfold answered_incorrectly. by rewrite lookup_empty.
  - intros q. unfold answered_correctly. by rewrite lookup_empty.
Qed.

Lemma filter_ext_in_questions (f g : Question.t -> bool) (questions : list Question.t) :
  (forall q, In q questions -> f q = g q) ->
  List.filter f questions = List.filter g questions.
Proof.
  induction questions as [|q qs IH]; intros Hfg; simpl; [done|].
  rewrite (Hfg q) by (by left).
  rewrite IH; [done|]. intros q' Hin. apply Hfg. by right.
Qed.

(** X2: grading reads the answer map only at the identifiers of the
    assessment's questions: two submissions that agree there get the same
    score, the same verdict and the same missed list, so answers filed under
    unknown question identifiers are ignored. *)
Theorem grading_ignores_unknown_question_ids (assessment : Assessment.t)
    (answers answers' : gmap pystr json) :
  (forall q, In q (Assessment.questions assessment) ->
             answers !! question_id q = answers' !! question_id q) ->
  score (Assessment.questions assessment) answers
  = score (Assessment.questions assessment) answers'
  /\ passed assessment answers = passed assessment answers'
  /\ questions_missed (Assessment.questions assessment) answers
     = questions_missed (Assessment.questions assessment) answers'.
Proof.
  intros Hagree.
  assert (Hcorrect : correct_answers (Assessment.questions assessment) answers
                     = correct_answers (Assessment.questions assessment) answers').
  { rewrite !correct_answers_count. f_equal. f_equal.
    apply filter_ext_in_questions. intros q Hin.
    unfold answered_correctly. by rewrite (Hagree q Hin). }
  assert (Hscore : score (Assessment.questions assessment) answers
                   = score (Assessment.questions assessment) answers').
  { unfold score. by rewrite Hcorrect. }
  split; [exact Hscore|]. split.
  - unfold passed. by rewrite Hscore.
  - rewrite !questions_missed_filter. f_equal.
    apply filter_ext_in_questions. intros q Hin.
    unfold answered_incorrectly. by rewrite (Hagree q Hin).
Qed.

Lemma grading_ignores_unknown_question_ids_witness :
  score (Assessment.questions Sample.quiz)
    (<[py "q9" := JStr (py "z")]> Sample.answers)
  = score (Assessment.questions Sample.quiz) Sample.answers
  /\ passed Sample.quiz (<[py "q9" := JStr (py "z")]> Sample.answers)
     = passed Sample.quiz Sample.answers
  /\ questions_missed (Assessment.questions Sample.quiz)
       (<[py "q9" := JStr (py "z")]> Sample.answers)
     = questions_missed (Assessment.questions Sample.quiz) Sample.answers.
Proof.
  apply (grading_ignores_unknown_question_ids Sample.quiz).
  intros q Hin. simpl in Hin.
  destruct Hin as [<-|[<-|[<-|[<-|[]]]]]; vm_compute; reflexivity.
Defined.

(** ** Grading engine: the range of the score *)

Lemma ratios_in_range_200 : ratios_in_range 200 = true.
Proof. vm_compute. reflexivity. Qed.

Lemma leibniz_eqb_iff (x y : float) (b : bool) :
  Bool.eqb (PrimFloat.Leibniz.eqb x y) b = true -> (x = y <-> b = true).
Proof.
  intros E. apply Bool.eqb_prop in E. rewrite <- E.
  symmetry. apply FloatAxioms.Leibniz.eqb_spec.
Qed.

Lemma ratios_in_range_sound (bound : nat) (c t : Z) :
  ratios_in_range bound = true ->
  0 <= c <= t -> 0 < t <= Z.of_nat bound ->
  let f := PrimFloat.mul (true_div c t) (of_Z 100) in
  PrimFloat.leb (of_Z 0) f = true
  /\ PrimFloat.leb f (of_Z 100) = true
  /\ (f = of_Z 100 <-> c = t)
  /\ (f = of_Z 0 <-> c = 0).
Proof.
  intros Hall Hc Ht f.
  unfold ratios_in_range in Hall.
  rewrite forallb_forall in Hall.
  specialize (Hall (Z.to_nat t)).
  rewrite forallb_forall in Hall.
  assert (Hin_t : In (Z.to_nat t) (seq 1 bound)) by (apply in_seq; lia).
  assert (Hin_c : In (Z.to_nat c) (seq 0 (S (Z.to_nat t)))) by (apply in_seq; lia).
  specialize (Hall Hin_t (Z.to_nat c) Hin_c).
  rewrite !Z2Nat.id in Hall by lia. fold f in Hall.
  rewrite !andb_true_iff in Hall.
  destruct Hall as (((Hlo & Hhi) & Hfull) & Hzero).
  split; [exact Hlo|]. split; [exact Hhi|].
  apply leibniz_eqb_iff in Hfull, Hzero.
  rewrite Hfull, Hzero, !Nat.eqb_eq. lia.
Qed.

Lemma at_least_100 (z : Z) : float_ge_Z (of_Z 100) z = (z <=? 100).
Proof.
  unfold float_ge_Z.
  replace (Prim2SF (of_Z 100)) with (S754_finite false 7036874417766400 (-46))
    by (vm_compute; reflexivity).
  change (0 <=? -46) with false. cbv beta iota.
  change (2 ^ (- (-46))) with 70368744177664.
  destruct (Z.leb_spec z 100), (Z.leb_spec (z * 70368744177664) 7036874417766400);
    try done; lia.
Qed.

Lemma at_least_0 (z : Z) : float_ge_Z (of_Z 0) z = (z <=? 0).
Proof. reflexivity. Qed.

(** X3: for an assessment with 1 to 200 questions the score is a float
    between 0 and 100; it is exactly 100.0 when every question is answered
    correctly and only then, and exactly 0.0 when none is and only then.  A
    submission with every answer correct therefore passes exactly when the
    passing score is at most 100, and one without a correct answer exactly
    when the passing score is at most 0. *)
Theorem score_is_a_percentage (assessment : Assessment.t)
    (answers : gmap pystr json) :
  let questions := Assessment.questions assessment in
  (0 < length questions <= 200)%nat ->
  exists f : float,
    score questions answers = PyFloat f
    /\ PrimFloat.leb (of_Z 0) f = true
    /\ PrimFloat.leb f (of_Z 100) = true
    /\ (f = of_Z 100 <-> correct_answers questions answers = Z.of_nat (length questions))
    /\ (f = of_Z 0 <-> correct_answers questions answers = 0)
    /\ (correct_answers questions answers = Z.of_nat (length questions) ->
        passed assessment answers = (Assessment.passing_score assessment <=? 100))
    /\ (correct_answers questions answers = 0 ->
        passed assessment answers = (Assessment.passing_score assessment <=? 0)).
Proof.
  intros questions Hlen.
  assert (Hrange : 0 <= correct_answers questions answers
                   <= Z.of_nat (length questions)).
  { rewrite correct_answers_count.
    pose proof (classification_partition answers questions). lia. }
  destruct (ratios_in_range_sound 200 (correct_answers questions answers)
              (Z.of_nat (length questions)) ratios_in_range_200)
    as (Hlo & Hhi & Hfull & Hzero); [lia|lia|].
  assert (Hscore :
    score questions answers
    = PyFloat (PrimFloat.mul
                 (true_div (correct_answers questions answers)
                    (Z.of_nat (length questions)))
                 (of_Z 100))).
  { unfold score. destruct (Z.ltb_spec 0 (Z.of_nat (length questions))); [done|lia]. }
  eexists. split; [exact Hscore|].
  split; [exact Hlo|]. split; [exact Hhi|].
  split; [exact Hfull|]. split; [exact Hzero|].
  unfold passed. fold questions. rewrite Hscore. simpl. split.
  - intros E. apply Hfull in E. rewrite E. apply at_least_100.
  - intros E. apply Hzero in E. rewrite E. apply at_least_0.
Qed.

Lemma score_is_a_percentage_witness :
  (0 < length (Assessment.questions Sample.quiz) <= 200)%nat
  /\ exists f : float,
       score (Assessment.questions Sample.quiz) Sample.right_answers = PyFloat f
       /\ PrimFloat.leb (of_Z 0) f = true
       /\ PrimFloat.leb f (of_Z 100) = true.
Proof.
  assert (Hlen : (0 < length (Assessment.questions Sample.quiz) <= 200)%nat)
    by (simpl; lia).
  split; [exact Hlen|].
  destruct (score_is_a_percentage Sample.quiz Sample.right_answers Hlen)
    as (f & Hscore & Hlo & Hhi & _).
  exists f. split; [exact Hscore|]. split; [exact Hlo|exact Hhi].
Defined.

(** ** White space *)

Lemma drop_while_suffix (f : N -> bool) (s : pystr) :
  exists dropped, s = dropped ++ drop_while f s.
Proof.
  induction s as [|c s [dropped IH]]; simpl.
  - by exists [].
  - destruct (f c).
    + exists (c :: dropped). simpl. by rewrite <- IH.
    + by exists [].
Qed.

Lemma drop_while_head (f : N -> bool) (s : pystr) (c : N) (rest : pystr) :
  drop_while f s = c :: rest -> f c = false.
Proof.
  induction s as [|x s IH]; simpl; [done|].
  destruct (f x) eqn:E; [exact IH|].
  intros Heq. inversion Heq; subst. exact E.
Qed.

Lemma drop_while_kept (f : N -> bool) (c : N) (rest : pystr) :
  f c = false -> drop_while f (c :: rest) = c :: rest.
Proof. intros E. simpl. by rewrite E. Qed.

(** A stripped string starts and ends with a character that is not white
    space, so stripping it again changes nothing. *)
Lemma strip_strip (s : pystr) : strip (strip s) = strip s.
Proof.
  unfold strip, rstrip_by, lstrip_by.
  set (u := drop_while isspace s).
  set (d := drop_while isspace (rev u)).
  destruct d as [|c d'] eqn:Ed; [done|].
  assert (Hc : isspace c = false) by (by apply (drop_while_head _ (rev u) _ d')).
  destruct (drop_while_suffix isspace (rev u)) as [dropped Hsplit].
  fold d in Hsplit. rewrite Ed in Hsplit.
  assert (Hu : u = rev (c :: d') ++ rev dropped).
  { rewrite <- (rev_involutive u), Hsplit. by rewrite rev_app_distr. }
  destruct (rev (c :: d')) as [|x t] eqn:Et.
  { apply (f_equal (@length N)) in Et. rewrite length_rev in Et. done. }
  assert (Hx : isspace x = false).
  { destruct u as [|y u'] eqn:Eu.
    - simpl in Hu. done.
    - simpl in Hu. inversion Hu; subst y.
      by apply (drop_while_head _ s _ u'). }
  rewrite (drop_while_kept _ _ _ Hx).
  rewrite <- Et, rev_involutive.
  by rewrite (drop_while_kept _ _ _ Hc).
Qed.

(** ** The replies of [GrokService] *)

Lemma In_take {A : Type} (n : nat) (l : list A) (x : A) :
  In x (take n l) -> In x l.
Proof.
  revert l. induction n as [|n IH]; intros [|y l]; simpl; try done.
  intros [->|Hin]; [by left|]. right. by apply IH.
Qed.

Lemma fixed_messages_not_blank (m : pystr) :
  In m chat_fixed_messages -> strip m <> [].
Proof.
  unfold chat_fixed_messages. simpl.
  intros [<-|[<-|[<-|[<-|[<-|[<-|[]]]]]]]; vm_compute; discriminate.
Qed.

Section Replies.
Context `{Host}.

(** X4: whatever the client does, the reply of [chat] is never empty or
    white space only.  It is one of six fixed messages, or the client's text
    with the surrounding white space removed, and then the lower-cased text
    contains none of the refusal phrases.  At most one request is sent, and
    none for a blank message. *)
Theorem chat_reply_is_never_blank (client : llm_client) (user_message : pystr)
    (system_context : option pystr) (student_context : pydict) :
  let reply :=
    fst (GrokService.chat client user_message system_context student_context) in
  let sent :=
    snd (GrokService.chat client user_message system_context student_context) in
  strip reply <> []
  /\ (In reply chat_fixed_messages
      \/ exists (content : pystr) (others : list (option pystr)),
           client (GrokService.chat_request user_message system_context
                     student_context)
           = Completion (Some content :: others)
           /\ reply = strip content
           /\ existsb (fun phrase => contains phrase (str_lower content))
                refusal_phrases = false)
  /\ (length sent <= 1)%nat
  /\ (strip user_message = [] <-> sent = []).
Proof.
  intros reply sent.
  assert (Hfallback : forall e, In (GrokService.chat_fallback e) chat_fixed_messages).
  { intros e. pose proof (chat_fallback_is_fixed e) as Hin.
    unfold chat_fallback_messages, chat_fixed_messages in *. simpl in *. tauto. }
  assert (Hkind :
    In reply chat_fixed_messages
    \/ exists (content : pystr) (others : list (option pystr)),
         client (GrokService.chat_request user_message system_context student_context)
         = Completion (Some content :: others)
         /\ reply = strip content
         /\ strip content <> []
         /\ existsb (fun phrase => contains phrase (str_lower content))
              refusal_phrases = false).
  { subst reply. unfold GrokService.chat.
    destruct (bool_decide (strip user_message = [])); cbn [fst].
    { left. unfold chat_fixed_messages. simpl. tauto. }
    unfold GrokService.chat_validate. fold refusal_phrases.
    destruct (client _) as [e|[|[content|] others]] eqn:Hclient.
    - left. apply Hfallback.
    - left. apply Hfallback.
    - destruct (bool_decide_reflect (strip content = [])) as [Hblank|Hblank].
      { left. apply Hfallback. }
      destruct (existsb _ refusal_phrases) eqn:Hrefusal.
      { left. unfold chat_fixed_messages. simpl. tauto. }
      right. by exists content, others.
    - left. apply Hfallback. }
  split; [|split; [|split]].
  - destruct Hkind as [Hfixed|(content & others & _ & -> & Hblank & _)].
    + by apply fixed_messages_not_blank.
    + by rewrite strip_strip.
  - destruct Hkind as [Hfixed|(content & others & Hclient & Hreply & _ & Hrefusal)].
    + by left.
    + right. by exists content, others.
  - subst sent. rewrite chat_requests.
    destruct (bool_decide (strip user_message = [])); simpl; lia.
  - subst sent. rewrite chat_requests.
    destruct (bool_decide_reflect (strip user_message = [])); split; done.
Qed.

(** X5: whatever the client does and whatever the inputs are, goal
    generation returns between 3 and 5 goals, none of them empty, and sends
    at most one request. *)
Theorem goals_number_three_to_five (client : llm_client) (student_grade : json)
    (subject difficulty : pystr) :
  let goals :=
    fst (GrokService.generate_personalized_goals client student_grade subject
           difficulty) in
  let sent :=
    snd (GrokService.generate_personalized_goals client student_grade subject
           difficulty) in
  (3 <= length goals <= 5)%nat
  /\ (forall goal, In goal goals -> goal <> [])
  /\ (length sent <= 1)%nat.
Proof.
  intros goals sent.
  assert (Hfallback :
    (3 <= length (GrokService._get_fallback_goals subject difficulty) <= 5)%nat
    /\ forall goal, In goal (GrokService._get_fallback_goals subject difficulty) ->
                    goal <> []).
  { split; [simpl; lia|].
    unfold GrokService._get_fallback_goals. simpl.
    intros goal [<-|[<-|[<-|[<-|[]]]]]; vm_compute; discriminate. }
  assert (Hparsed : forall response,
    3 <= Z.of_nat (length (GrokService.parse_goals response)) ->
    (3 <= length (take 5 (GrokService.parse_goals response)) <= 5)%nat
    /\ forall goal, In goal (take 5 (GrokService.parse_goals response)) -> goal <> []).
  { intros response Hlen. split; [rewrite length_take; lia|].
    intros goal Hin ->. apply In_take in Hin.
    rewrite parse_goals_valid in Hin.
    apply valid_goals_are_long in Hin. simpl in Hin. lia. }
  subst goals sent. unfold GrokService.generate_personalized_goals.
  destruct (bool_decide (subject = []) || GrokService.grade_invalid student_grade);
    cbn [fst snd length].
  { destruct Hfallback. split; [done|]. split; [done|lia]. }
  cut ((3 <= length
               match client (GrokService.goals_request student_grade subject
                               difficulty) with
               | Raises _ => GrokService._get_fallback_goals subject difficulty
               | Completion choices =>
                   match GrokService.goals_from_choices choices subject difficulty with
                   | Some goals => goals
                   | None => GrokService._get_fallback_goals subject difficulty
                   end
               end <= 5)%nat
       /\ forall goal,
            In goal
              match client (GrokService.goals_request student_grade subject
                              difficulty) with
              | Raises _ => GrokService._get_fallback_goals subject difficulty
              | Completion choices =>
                  match GrokService.goals_from_choices choices subject difficulty with
                  | Some goals => goals
                  | None => GrokService._get_fallback_goals subject difficulty
                  end
              end -> goal <> []).
  { intros [? ?]. split; [done|]. split; [done|lia]. }
  unfold GrokService.goals_from_choices.
  destruct (client _) as [e|[|[response|] others]]; try exact Hfallback.
  destruct (bool_decide (strip response = [])); [exact Hfallback|].
  destruct (Z.leb_spec 3 (Z.of_nat (length (GrokService.parse_goals response))));
    [by apply Hparsed|exact Hfallback].
Qed.

End Replies.

(** ** Submissions and the client *)

Section Submissions.
Context `{Host}.

(** The feedback of a client that raises, or returns no choice, is the
    local fallback text. *)
Lemma feedback_of_failing_client (client : llm_client) (s : pynum)
    (subject : pystr) (missed : option (list pystr)) :
  (exists e, client (GrokService.feedback_request s subject missed) = Raises e)
  \/ client (GrokService.feedback_request s subject missed) = Completion [] ->
  fst (GrokService.generate_assessment_feedback client s subject missed)
  = Some (GrokService.feedback_fallback s).
Proof.
  unfold GrokService.generate_assessment_feedback.
  intros [[e ->]| ->]; reflexivity.
Qed.

(** The progress update succeeds when the content item of the assessment
    exists and at most one record matches. *)
Lemma update_progress_from_assessment_ok (db : DB) (student : Student.t)
    (assessment : Assessment.t) (learning_path_id : option Z) (s : pynum)
    (pass : bool) (now : Z) :
  (forall c, Assessment.content_id assessment = Some c ->
             find_by_id Content.id c (contents db) <> None) ->
  (forall l c, truthy_id learning_path_id = Some l ->
               Assessment.content_id assessment = Some c ->
               (length (matching_progress db (Student.id student) l c) <= 1)%nat) ->
  exists db', update_progress_from_assessment db student assessment
                learning_path_id s pass now = Ok db'.
Proof.
  intros Hcontent Hunique. unfold update_progress_from_assessment, mbind, result_bind.
  destruct (truthy_id learning_path_id) as [l|]; [|by eexists].
  destruct (Assessment.content_id assessment) as [c|]; [|by eexists].
  unfold related.
  destruct (find_by_id Content.id c (contents db)) as [content|] eqn:Hfind.
  2: { by destruct (Hcontent c eq_refl). }
  specialize (Hunique l c eq_refl eq_refl).
  apply find_by_id_Some in Hfind as [_ <-].
  destruct (matching_progress db (Student.id student) l (Content.id content))
    as [|p [|p' rest]]; [by eexists|by eexists|].
  simpl in Hunique. lia.
Qed.

(** X6: a submission never fails because the client fails.  When the
    assessment, the student, the subject and the named learning path exist,
    the content item of the assessment exists and at most one progress
    record matches the (student, learning path, content) triple, a client
    that raises
    on the feedback request, or returns no choice, still lets the request
    succeed: one result row is appended whose feedback is the local fallback
    text and whose score and verdict are those of the grading. *)
Theorem submission_survives_client_failure (client : llm_client) (db : DB)
    (assessment_id : Z) (payload : AssessmentInputSchema.t) (now : Z)
    (assessment : Assessment.t) (student : Student.t) (subject : Subject.t) :
  let answers := AssessmentInputSchema.answers payload in
  let s := score (Assessment.questions assessment) answers in
  let missed := questions_missed (Assessment.questions assessment) answers in
  let request :=
    GrokService.feedback_request s (Subject.name subject)
      (match missed with [] => None | _ => Some missed end) in
  get_object_or_404 Assessment.id assessment_id (assessments db) = Ok assessment ->
  get_object_or_404 Student.id (AssessmentInputSchema.student_id payload)
    (students db) = Ok student ->
  related Subject.id (Assessment.subject_id assessment) (subjects db) = Ok subject ->
  learning_path_known db (AssessmentInputSchema.learning_path_id payload) = true ->
  (forall c, Assessment.content_id assessment = Some c ->
             find_by_id Content.id c (contents db) <> None) ->
  (forall l c, truthy_id (AssessmentInputSchema.learning_path_id payload) = Some l ->
               Assessment.content_id assessment = Some c ->
               (length (matching_progress db (Student.id student) l c) <= 1)%nat) ->
  (exists e, client request = Raises e) \/ client request = Completion [] ->
  exists (row : AssessmentResult.t) (db' : DB),
    submit_assessment client db assessment_id payload now = Ok (row, db', [request])
    /\ AssessmentResult.ai_feedback row = GrokService.feedback_fallback s
    /\ AssessmentResult.score row = to_float s
    /\ AssessmentResult.passed row = passed assessment answers
    /\ assessment_results db' = assessment_results db ++ [row].
Proof.
  intros answers s missed request Hassessment Hstudent Hsubject Hknown
    Hcontent Hunique Hclient.
  pose proof (feedback_of_failing_client client s (Subject.name subject)
                (match missed with [] => None | _ => Some missed end) Hclient)
    as Hfeedback.
  unfold submit_assessment, mbind, result_bind.
  rewrite Hassessment, Hstudent, Hsubject.
  fold answers. fold s. fold missed.
  destruct (GrokService.generate_assessment_feedback client s (Subject.name subject) _)
    as [feedback calls] eqn:Hgenerate.
  assert (Hcalls : calls = [request]).
  { unfold GrokService.generate_assessment_feedback in Hgenerate.
    by inversion Hgenerate. }
  simpl in Hfeedback. subst feedback calls.
  unfold create_assessment_result. rewrite Hknown.
  match goal with
  | |- context [update_progress_from_assessment ?db1 _ _ _ _ _ _] =>
      destruct (update_progress_from_assessment_ok db1 student assessment
                  (AssessmentInputSchema.learning_path_id payload) s
                  (passed assessment answers) now) as [db2 Hupdate];
        [exact Hcontent|exact Hunique|]
  end.
  rewrite Hupdate.
  eexists _, _. split; [reflexivity|].
  repeat split.
  unfold update_progress_from_assessment, mbind, result_bind in Hupdate.
  repeat match type of Hupdate with
         | match ?x with _ => _ end = _ => destruct x; try discriminate Hupdate
         end;
    by inversion Hupdate.
Qed.

(** X7: the feedback text is not checked before it is stored.  When the
    client answers the feedback request with a completion whose first choice
    has no content, the insertion of the result violates NOT NULL on
    [ai_feedback] and the request ends with an integrity error, for an
    existing assessment, student and subject. *)
Theorem submission_fails_on_missing_feedback (client : llm_client) (db : DB)
    (assessment_id : Z) (payload : AssessmentInputSchema.t) (now : Z)
    (assessment : Assessment.t) (student : Student.t) (subject : Subject.t)
    (others : list (option pystr)) :
  let answers := AssessmentInputSchema.answers payload in
  let s := score (Assessment.questions assessment) answers in
  let missed := questions_missed (Assessment.questions assessment) answers in
  get_object_or_404 Assessment.id assessment_id (assessments db) = Ok assessment ->
  get_object_or_404 Student.id (AssessmentInputSchema.student_id payload)
    (students db) = Ok student ->
  related Subject.id (Assessment.subject_id assessment) (subjects db) = Ok subject ->
  client (GrokService.feedback_request s (Subject.name subject)
            (match missed with [] => None | _ => Some missed end))
  = Completion (None :: others) ->
  submit_assessment client db assessment_id payload now = Err IntegrityError.
Proof.
  intros answers s missed Hassessment Hstudent Hsubject Hclient.
  unfold submit_assessment, mbind, result_bind.
  rewrite Hassessment, Hstudent, Hsubject.
  fold answers. fold s. fold missed.
  unfold GrokService.generate_assessment_feedback. by rewrite Hclient.
Qed.

End Submissions.

Lemma submission_survives_client_failure_witness :
  exists (row : AssessmentResult.t) (db' : DB) (calls : list llm_request),
    submit_assessment (H := ascii_host) (Sample.failing_client "Request timed out.")
      Sample.fresh_db 1 (Sample.submission (Some 1) Sample.answers) 800
    = Ok (row, db', calls)
    /\ AssessmentResult.passed row = false
    /\ assessment_results db' = [row].
Proof.
  edestruct (submission_survives_client_failure (H := ascii_host)
               (Sample.failing_client "Request timed out.") Sample.fresh_db 1
               (Sample.submission (Some 1) Sample.answers) 800
               Sample.quiz Sample.student Sample.subject)
    as (row & db' & Hrun & _ & _ & Hpassed & Hrows).
  - reflexivity.
  - reflexivity.
  - reflexivity.
  - vm_compute. reflexivity.
  - intros c Hc. vm_compute in Hc. inversion Hc; subst. vm_compute. discriminate.
  - intros l c Hl Hc. vm_compute in Hl, Hc. inversion Hl; inversion Hc; subst.
    vm_compute. lia.
  - left. eexists. reflexivity.
  - exists row, db'. eexists. split; [exact Hrun|].
    split; [exact Hpassed|exact Hrows].
Defined.

Lemma submission_fails_on_missing_feedback_witness :
  submit_assessment (H := ascii_host) MoreSamples.silent_client
    Sample.fresh_db 1 (Sample.submission (Some 1) Sample.answers) 800
  = Err IntegrityError.
Proof.
  apply (submission_fails_on_missing_feedback (H := ascii_host)
           MoreSamples.silent_client Sample.fresh_db 1
           (Sample.submission (Some 1) Sample.answers) 800
           Sample.quiz Sample.student Sample.subject []);
    reflexivity.
Defined.

(** ** Progress rows over time *)

Lemma row_evolves_refl (p : Progress.t) : row_evolves p p.
Proof. unfold row_evolves. tauto. Qed.

Lemma row_evolves_trans (p q r : Progress.t) :
  row_evolves p q -> row_evolves q r -> row_evolves p r.
Proof.
  unfold row_evolves.
  intros (E1 & E2 & E3 & E4 & Hs1 & Hc1) (F1 & F2 & F3 & F4 & Hs2 & Hc2).
  repeat split; try congruence.
  - intros t Ht. by apply Hs2, Hs1.
  - intros Hc. by apply Hc2, Hc1.
Qed.

Lemma payload_keeps_triple (payload : ProgressInputSchema.t) (now : Z)
    (p : Progress.t) :
  Progress.student_id (apply_progress_payload payload now p) = Progress.student_id p
  /\ Progress.learning_path_id (apply_progress_payload payload now p)
     = Progress.learning_path_id p.
Proof. by payload_cases payload. Qed.

Lemma payload_row_evolves (payload : ProgressInputSchema.t) (now : Z)
    (p : Progress.t) :
  row_evolves p (Progress.set_updated_at now (apply_progress_payload payload now p)).
Proof.
  destruct (payload_keeps_id payload now p) as [Hid Hcid].
  destruct (payload_keeps_triple payload now p) as [Hsid Hlid].
  unfold row_evolves. simpl.
  rewrite payload_started_at, payload_completed_at.
  repeat split; try done.
  - intros t Ht.
    destruct (ProgressInputSchema.status payload) as [[|c s]|]; try done.
    rewrite bool_decide_eq_false_2 by congruence. by rewrite andb_false_r.
  - intros Hc.
    destruct (ProgressInputSchema.status payload) as [[|c s]|]; try done.
    destruct (_ && _); [done|].
    rewrite bool_decide_eq_false_2 by done. by rewrite andb_false_r.
Qed.

Lemma assessment_row_evolves (s : pynum) (pass : bool) (now : Z) (p : Progress.t) :
  row_evolves p (Progress.set_updated_at now (apply_assessment_outcome s pass now p)).
Proof.
  unfold row_evolves, apply_assessment_outcome.
  destruct pass; simpl; repeat split; done.
Qed.

(** Saving one row of a table with unique keys changes that row only. *)
Lemma save_row_evolves (rows : list Progress.t) (p p' : Progress.t) :
  NoDup (map Progress.id rows) ->
  In p rows ->
  row_evolves p p' ->
  Forall2 row_evolves rows
    (map (fun r => if Progress.id r =? Progress.id p then p' else r) rows).
Proof.
  intros Hnodup Hin Hevolves.
  induction rows as [|r rows IH]; simpl; [constructor|].
  simpl in Hnodup. apply NoDup_cons in Hnodup as [Hfresh Hnodup].
  destruct Hin as [->|Hin].
  - rewrite Z.eqb_refl. constructor; [exact Hevolves|].
    clear IH. induction rows as [|r rows IH]; simpl; [constructor|].
    simpl in Hfresh, Hnodup. apply NoDup_cons in Hnodup as [Hfresh' Hnodup].
    destruct (Z.eqb_spec (Progress.id r) (Progress.id p)) as [E|_].
    { exfalso. apply Hfresh. rewrite E. by left. }
    constructor; [apply row_evolves_refl|].
    apply IH; [|done]. intros Hin. apply Hfresh. by right.
  - destruct (Z.eqb_spec (Progress.id r) (Progress.id p)) as [E|_].
    { exfalso. apply Hfresh. rewrite E.
      apply list_elem_of_In, in_map. exact Hin. }
    constructor; [apply row_evolves_refl|]. by apply IH.
Qed.

Lemma Forall2_row_evolves_refl (rows : list Progress.t) :
  Forall2 row_evolves rows rows.
Proof. induction rows; constructor; [apply row_evolves_refl|done]. Qed.

Lemma Forall2_row_evolves_ids (rows rows' : list Progress.t) :
  Forall2 row_evolves rows rows' -> map Progress.id rows' = map Progress.id rows.
Proof.
  induction 1 as [|p p' rows rows' Hp _ IH]; simpl; [done|].
  destruct Hp as [-> _]. by rewrite IH.
Qed.

Lemma Forall2_row_evolves_trans (a b c : list Progress.t) :
  Forall2 row_evolves a b -> Forall2 row_evolves b c -> Forall2 row_evolves a c.
Proof.
  intros Hab. revert c.
  induction Hab as [|p q a b Hpq _ IH]; intros c Hbc; inversion Hbc; subst;
    constructor.
  - by apply (row_evolves_trans p q).
  - by apply IH.
Qed.

Lemma progress_step_row_evolves `{Host} (db db' : DB) :
  NoDup (map Progress.id (progress_records db)) ->
  progress_step db db' ->
  Forall2 row_evolves (progress_records db) (progress_records db').
Proof.
  intros Hnodup Hstep.
  destruct Hstep as [progress_id payload now saved title db' Hrun
                    |client assessment_id payload now row db' calls Hrun].
  - unfold update_progress, mbind, result_bind in Hrun.
    destruct (get_object_or_404 Progress.id progress_id (progress_records db))
      as [progress|] eqn:Hget; [|done].
    destruct (related Content.id _ _) as [content|]; [|done].
    inversion Hrun; subst.
    apply get_object_or_404_Ok, find_by_id_Some in Hget as [Hin _].
    rewrite save_progress_records.
    rewrite (proj1 (payload_keeps_id payload now progress)).
    apply save_row_evolves; [done|done|apply payload_row_evolves].
  - apply submit_assessment_Ok in Hrun
      as (assessment & student & subject & db1 & _ & _ & _ & Hrows & _ & Hupdate).
    rewrite <- Hrows. rewrite <- Hrows in Hnodup.
    unfold update_progress_from_assessment, mbind, result_bind in Hupdate.
    destruct (truthy_id _) as [l|];
      [|inversion Hupdate; subst; apply Forall2_row_evolves_refl].
    destruct (Assessment.content_id assessment) as [c|];
      [|inversion Hupdate; subst; apply Forall2_row_evolves_refl].
    destruct (related Content.id c (contents db1)) as [content|]; [|done].
    destruct (matching_progress db1 (Student.id student) l (Content.id content))
      as [|p [|? ?]] eqn:Hmatch; inversion Hupdate; subst.
    + apply Forall2_row_evolves_refl.
    + assert (Hin : In p (progress_records db1)).
      { assert (Hin' : In p (matching_progress db1 (Student.id student) l
                               (Content.id content)))
          by (rewrite Hmatch; by left).
        unfold matching_progress in Hin'. by apply filter_In in Hin' as [? _]. }
      rewrite save_progress_records.
      assert (Hid : Progress.id (apply_assessment_outcome
                                   (score (Assessment.questions assessment)
                                      (AssessmentInputSchema.answers payload))
                                   (passed assessment
                                      (AssessmentInputSchema.answers payload)) now p)
                    = Progress.id p)
        by (unfold apply_assessment_outcome; by destruct (passed _ _)).
      rewrite Hid.
      apply save_row_evolves; [done|done|apply assessment_row_evolves].
Qed.

(** X8: manual updates and assessment submissions never add or delete a
    progress row and never move one to another student, learning path or
    content item.  In a table with unique primary keys, after any sequence of
    successful requests the rows are the same rows in the same order; a
    [started_at] stamp that was set is unchanged and a [completed_at] stamp
    that was set is still set. *)
Theorem progress_rows_keep_their_stamps `{Host} (db db' : DB) :
  NoDup (map Progress.id (progress_records db)) ->
  progress_steps db db' ->
  Forall2 row_evolves (progress_records db) (progress_records db')
  /\ map Progress.id (progress_records db') = map Progress.id (progress_records db).
Proof.
  intros Hnodup Hsteps.
  assert (Hrows : Forall2 row_evolves (progress_records db) (progress_records db')).
  { induction Hsteps as [|db db1 db2 Hstep _ IH].
    - apply Forall2_row_evolves_refl.
    - pose proof (progress_step_row_evolves db db1 Hnodup Hstep) as Hfirst.
      apply (Forall2_row_evolves_trans _ (progress_records db1)); [done|].
      apply IH. by rewrite (Forall2_row_evolves_ids _ _ Hfirst). }
  split; [exact Hrows|]. by apply Forall2_row_evolves_ids.
Qed.

(** The sample store after the first item was opened and the quiz passed. *)
Lemma sample_requests :
  progress_steps (H := ascii_host) Sample.fresh_db Sample.graded_db.
Proof.
  eapply steps_more.
  - eapply (step_manual _ 1 (Sample.only_status "in_progress") 50).
    vm_compute. reflexivity.
  - eapply steps_more; [|apply steps_done].
    eapply (step_assessment _ (Sample.failing_client "connection refused") 1
              (Sample.submission (Some 1) Sample.right_answers) 800).
    vm_compute. reflexivity.
Defined.

Lemma progress_rows_keep_their_stamps_witness :
  NoDup (map Progress.id (progress_records Sample.fresh_db))
  /\ Forall2 row_evolves (progress_records Sample.fresh_db)
       (progress_records Sample.graded_db)
  /\ map Progress.id (progress_records Sample.graded_db) = [1; 2; 3].
Proof.
  assert (Hnodup : NoDup (map Progress.id (progress_records Sample.fresh_db))).
  { apply (bool_decide_unpack _). vm_compute. exact I. }
  split; [exact Hnodup|].
  exact (progress_rows_keep_their_stamps (H := ascii_host)
           Sample.fresh_db Sample.graded_db Hnodup sample_requests).
Defined.

(** ** Progress coordinator: what a manual update accepts *)

(** X9: a manual update stores any non-empty status string as it is, whether
    or not it is one of the declared status choices; an empty status string
    is treated as absent and then the status and both stamps stay as they
    were. *)
Theorem manual_update_stores_any_status (db : DB) (progress_id : Z)
    (payload : ProgressInputSchema.t) (now : Z) (progress : Progress.t)
    (content : Content.t) :
  get_object_or_404 Progress.id progress_id (progress_records db) = Ok progress ->
  related Content.id (Progress.content_id progress) (contents db) = Ok content ->
  exists (saved : Progress.t) (db' : DB),
    update_progress db progress_id payload now = Ok (saved, Content.title content, db')
    /\ (forall status, ProgressInputSchema.status payload = Some status ->
                       status <> [] -> Progress.status saved = status)
    /\ (ProgressInputSchema.status payload = Some []
        \/ ProgressInputSchema.status payload = None ->
        Progress.status saved = Progress.status progress
        /\ Progress.started_at saved = Progress.started_at progress
        /\ Progress.completed_at saved = Progress.completed_at progress).
Proof.
  intros Hget Hcontent.
  destruct (update_progress_ok db progress_id payload now progress content
              Hget Hcontent) as (Hrun & _ & _).
  eexists _, _. split; [exact Hrun|]. simpl.
  rewrite payload_status, payload_started_at, payload_completed_at.
  split.
  - intros status -> Hstatus. by destruct status.
  - by intros [-> | ->].
Qed.

Lemma manual_update_stores_any_status_witness :
  ~ In (py "paused") STATUS_CHOICES
  /\ exists (saved : Progress.t) (db' : DB),
       update_progress Sample.fresh_db 1 (Sample.only_status "paused") 50
       = Ok (saved, py "Fractions", db')
       /\ Progress.status saved = py "paused".
Proof.
  split.
  { vm_compute. intros [E|[E|[E|[E|[]]]]]; discriminate E. }
  destruct (manual_update_stores_any_status Sample.fresh_db 1
              (Sample.only_status "paused") 50
              (Progress.create 1 1 1 1 0) (Sample.content 1 "Fractions")
              eq_refl eq_refl)
    as (saved & db' & Hrun & Hstatus & _).
  exists saved, db'. split; [exact Hrun|].
  apply Hstatus; [reflexivity|]. vm_compute. discriminate.
Defined.

(** ** Two ways of counting completed items *)

(** X10: the mentor context counts completed items by status, the path
    completion counts them by [completed_at].  When every completed record
    carries its stamp, the status count for a student on a path never
    exceeds the stamp count of the path. *)
Theorem status_count_is_at_most_stamp_count (db : DB) (student : Student.t)
    (path : LearningPath.t) :
  Forall completed_is_stamped (progress_records db) ->
  count_status (path_progress db student path) "completed" <= count_completed db path.
Proof.
  intros Hall. unfold count_status, path_progress, count_completed.
  apply Nat2Z.inj_le.
  induction (progress_records db) as [|p rows IH]; simpl; [done|].
  apply Forall_cons in Hall as [Hp Hall]. specialize (IH Hall).
  destruct (Progress.learning_path_id p =? LearningPath.id path);
    [|rewrite andb_false_r; simpl; exact IH].
  rewrite andb_true_r. simpl.
  destruct (Progress.student_id p =? Student.id student); simpl.
  - destruct (str_eqb (Progress.status p) (py "completed")) eqn:Estatus.
    + apply str_eqb_eq in Estatus. apply Hp in Estatus.
      rewrite bool_decide_eq_true_2 by done. simpl. lia.
    + destruct (bool_decide _); simpl; lia.
  - destruct (bool_decide _); simpl; lia.
Qed.

Lemma status_count_is_at_most_stamp_count_witness :
  Forall completed_is_stamped (progress_records Sample.graded_db)
  /\ count_status (path_progress Sample.graded_db Sample.student Sample.path)
       "completed"
     <= count_completed Sample.graded_db Sample.path.
Proof.
  assert (Hall : Forall completed_is_stamped (progress_records Sample.graded_db)).
  { vm_compute. repeat constructor; intros E; discriminate. }
  split; [exact Hall|].
  exact (status_count_is_at_most_stamp_count Sample.graded_db
           Sample.student Sample.path Hall).
Defined.

(** ** Learning-path creation *)

Lemma next_id_above {A : Type} (pk : A -> Z) (rows : list A) (r : A) :
  In r rows -> pk r < next_id pk rows.
Proof.
  unfold next_id.
  assert (Hfold : forall l m,
    m <= fold_left (fun m r => Z.max m (pk r)) l m
    /\ (In r l -> pk r <= fold_left (fun m r => Z.max m (pk r)) l m)).
  { induction l as [|x l IH]; intros m; simpl; [split; [lia|done]|].
    destruct (IH (Z.max m (pk x))) as [Hm Hin]. split; [lia|].
    intros [->|Hr]; [lia|by apply Hin]. }
  intros Hin. destruct (Hfold rows 0) as [_ Hle]. specialize (Hle Hin). lia.
Qed.

Lemma next_id_is_fresh {A : Type} (pk : A -> Z) (rows : list A) :
  find_by_id pk (next_id pk rows) rows = None.
Proof.
  destruct (find_by_id pk (next_id pk rows) rows) as [r|] eqn:E; [|done].
  apply find_by_id_Some in E as [Hin Hk].
  pose proof (next_id_above pk rows r Hin). lia.
Qed.

Lemma assignment_exists_false (db : DB) (learning_path content : Z) :
  (forall a, In a (content_assignments db) ->
     ContentAssignment.learning_path_id a = learning_path ->
     ContentAssignment.content_id a <> content) ->
  assignment_exists db learning_path content = false.
Proof.
  intros Hnone. unfold assignment_exists.
  destruct (existsb _ _) eqn:E; [|done].
  apply existsb_exists in E as (a & Hin & Ha).
  apply andb_true_iff in Ha as [Hl Hc].
  apply Z.eqb_eq in Hl, Hc. by destruct (Hnone a Hin Hl).
Qed.

Lemma progress_exists_false (db : DB) (student learning_path content : Z) :
  (forall p, In p (progress_records db) ->
     Progress.learning_path_id p = learning_path ->
     Progress.content_id p <> content) ->
  progress_exists db student learning_path content = false.
Proof.
  intros Hnone. unfold progress_exists.
  destruct (existsb _ _) eqn:E; [|done].
  apply existsb_exists in E as (p & Hin & Hp).
  apply andb_true_iff in Hp as [Hp Hc].
  apply andb_true_iff in Hp as [_ Hl].
  apply Z.eqb_eq in Hl, Hc. by destruct (Hnone p Hin Hl).
Qed.

(** The loop succeeds on existing, pairwise distinct content items that the
    path does not hold yet, and appends one assignment and one initial
    progress row per item, numbered in the order of the list. *)
Lemma assign_content_ok (content_ids : list Z) (db : DB)
    (student learning_path order now : Z) :
  (forall c, In c content_ids -> find_by_id Content.id c (contents db) <> None) ->
  NoDup content_ids ->
  (forall a, In a (content_assignments db) ->
     ContentAssignment.learning_path_id a = learning_path ->
     ~ In (ContentAssignment.content_id a) content_ids) ->
  (forall p, In p (progress_records db) ->
     Progress.learning_path_id p = learning_path ->
     ~ In (Progress.content_id p) content_ids) ->
  exists (db' : DB) (new_assignments : list ContentAssignment.t)
         (new_progress : list Progress.t),
    assign_content db student learning_path order content_ids now = Ok db'
    /\ content_assignments db' = content_assignments db ++ new_assignments
    /\ progress_records db' = progress_records db ++ new_progress
    /\ Forall2 (assigns learning_path) (numbered_from order content_ids) new_assignments
    /\ Forall2 (starts student learning_path now) content_ids new_progress
    /\ learning_paths db' = learning_paths db
    /\ contents db' = contents db.
Proof.
  revert db order.
  induction content_ids as [|c rest IH]; intros db order Hexist Hnodup Hassigned Hstarted.
  { exists db, [], []. simpl. rewrite !app_nil_r. repeat split; constructor. }
  apply NoDup_cons in Hnodup as [Hfresh Hnodup].
  simpl. unfold mbind, result_bind, get_object_or_404.
  destruct (find_by_id Content.id c (contents db)) as [content|] eqn:Hfind.
  2: { destruct (Hexist c); [by left|done]. }
  apply find_by_id_Some in Hfind as [_ Hid]. rewrite Hid.
  rewrite assignment_exists_false.
  2: { intros a Hin Hl Hc. apply (Hassigned a Hin Hl). rewrite Hc. by left. }
  rewrite progress_exists_false.
  2: { intros p Hin Hl Hc. apply (Hstarted p Hin Hl). rewrite Hc. by left. }
  match goal with
  | |- context [assign_content ?db2 _ _ _ rest _] =>
      destruct (IH db2 (order + 1))
        as (db' & new_assignments & new_progress & Hrun & Hasg & Hprog
            & Hkeys & Hrows & Hpaths & Hcontents)
  end.
  - intros c' Hin. simpl. apply Hexist. by right.
  - exact Hnodup.
  - simpl. intros a Hin Hl Hc. apply in_app_or in Hin as [Hin|[<-|[]]].
    + apply (Hassigned a Hin Hl). by right.
    + simpl in Hc. apply Hfresh. by apply list_elem_of_In.
  - simpl. intros p Hin Hl Hc. apply in_app_or in Hin as [Hin|[<-|[]]].
    + apply (Hstarted p Hin Hl). by right.
    + simpl in Hc. apply Hfresh. by apply list_elem_of_In.
  - eexists db', (_ :: new_assignments), (_ :: new_progress).
    split; [exact Hrun|].
    simpl in Hasg, Hprog, Hpaths, Hcontents.
    rewrite Hasg, Hprog, <- !app_assoc. simpl.
    split; [reflexivity|]. split; [reflexivity|].
    split; [constructor; [reflexivity|exact Hkeys]|].
    split; [constructor; [by eexists|exact Hrows]|].
    done.
Qed.

Lemma filter_all_false_in {A : Type} (f : A -> bool) (l : list A) :
  (forall x, In x l -> f x = false) -> List.filter f l = [].
Proof.
  induction l as [|x l IH]; intros Hf; simpl; [done|].
  rewrite (Hf x) by (by left). apply IH. intros y Hy. apply Hf. by right.
Qed.

Lemma filter_all_true_in {A : Type} (f : A -> bool) (l : list A) :
  (forall x, In x l -> f x = true) -> List.filter f l = l.
Proof.
  induction l as [|x l IH]; intros Hf; simpl; [done|].
  rewrite (Hf x) by (by left). f_equal. apply IH. intros y Hy. apply Hf. by right.
Qed.

Lemma Forall2_right_In {A B : Type} (R : A -> B -> Prop) (l : list A) (k : list B)
    (y : B) :
  Forall2 R l k -> In y k -> exists x, In x l /\ R x y.
Proof.
  induction 1 as [|x y' l k Hxy _ IH]; simpl; [done|].
  intros [<-|Hin].
  - exists x. split; [by left|done].
  - destruct (IH Hin) as (x' & Hx' & HR). exists x'. split; [by right|done].
Qed.

(** Among the initial rows of pairwise distinct content items, exactly one
    matches each item. *)
Lemma one_initial_row_per_item (student learning_path now : Z)
    (content_ids : list Z) (rows : list Progress.t) (c : Z) :
  Forall2 (starts student learning_path now) content_ids rows ->
  NoDup content_ids ->
  In c content_ids ->
  exists k,
    List.filter
      (fun p => (Progress.student_id p =? student)
                && (Progress.learning_path_id p =? learning_path)
                && (Progress.content_id p =? c))
      rows
    = [Progress.create k student learning_path c now].
Proof.
  induction 1 as [|c' p ids rows [k ->] Hrest IH]; intros Hnodup Hin; [done|].
  apply NoDup_cons in Hnodup as [Hfresh Hnodup].
  simpl. rewrite !Z.eqb_refl. simpl.
  destruct (Z.eqb_spec c' c) as [->|Hne].
  - exists k. f_equal. apply filter_all_false_in. intros q Hq.
    destruct (Forall2_right_In _ _ _ _ Hrest Hq) as (c'' & Hc'' & k' & ->).
    simpl. destruct (Z.eqb_spec c'' c) as [->|_]; [|by rewrite andb_false_r].
    exfalso. apply Hfresh. by apply list_elem_of_In.
  - destruct Hin as [E|Hin]; [done|]. by apply IH.
Qed.

Lemma length_numbered_from (order : Z) (content_ids : list Z) :
  length (numbered_from order content_ids) = length content_ids.
Proof.
  revert order. induction content_ids as [|c l IH]; intros order; simpl; [done|].
  by rewrite IH.
Qed.

Section Paths.
Context `{Host}.

(** X11: creating a learning path for an existing student and subject over
    existing, pairwise distinct content items succeeds whatever the client
    does (every stored assignment and progress row belonging to a stored
    path).  The new path gets one assignment per item, numbered from 1 in
    the order of the request, and one initial progress row per item; so it
    has as many assignments as the request has items, none completed, and
    for each item exactly one progress record matches the (student, path,
    content) triple, with status ["not_started"]. *)
Theorem new_path_has_one_record_per_item (client : llm_client) (db : DB)
    (payload : LearningPathInputSchema.t) (now : Z) (student : Student.t)
    (subject : Subject.t) :
  let content_ids := LearningPathInputSchema.content_ids payload in
  get_object_or_404 Student.id (LearningPathInputSchema.student_id payload)
    (students db) = Ok student ->
  get_object_or_404 Subject.id (LearningPathInputSchema.subject_id payload)
    (subjects db) = Ok subject ->
  (forall c, In c content_ids -> find_by_id Content.id c (contents db) <> None) ->
  NoDup content_ids ->
  rows_belong_to_paths db ->
  exists (path : LearningPath.t) (goals : list pystr) (db' : DB)
         (calls : list llm_request) (new_assignments : list ContentAssignment.t)
         (new_progress : list Progress.t),
    create_learning_path client db payload now = Ok (path, goals, db', calls)
    /\ learning_paths db' = learning_paths db ++ [path]
    /\ content_assignments db' = content_assignments db ++ new_assignments
    /\ progress_records db' = progress_records db ++ new_progress
    /\ Forall2 (assigns (LearningPath.id path)) (numbered_from 1 content_ids)
         new_assignments
    /\ Forall2 (starts (Student.id student) (LearningPath.id path) now) content_ids
         new_progress
    /\ count_assignments db' path = Z.of_nat (length content_ids)
    /\ count_completed db' path = 0
    /\ (forall c, In c content_ids ->
          exists p,
            matching_progress db' (Student.id student) (LearningPath.id path) c = [p]
            /\ Progress.status p = py "not_started").
Proof.
  intros content_ids Hstudent Hsubject Hexist Hnodup [Hold_a Hold_p].
  unfold create_learning_path, mbind, result_bind.
  rewrite Hstudent, Hsubject.
  destruct (GrokService.generate_personalized_goals _ _ _ _) as [goals calls].
  set (pid := next_id LearningPath.id (learning_paths db)).
  set (path := {| LearningPath.id := pid;
                  LearningPath.student_id := Student.id student;
                  LearningPath.subject_id := Subject.id subject;
                  LearningPath.title := LearningPathInputSchema.title payload;
                  LearningPath.difficulty_level :=
                    LearningPathInputSchema.difficulty_level payload |}).
  assert (Hfresh : find_by_id LearningPath.id pid (learning_paths db) = None)
    by apply next_id_is_fresh.
  assert (Hno_a : forall a, In a (content_assignments db) ->
                            ContentAssignment.learning_path_id a <> pid).
  { intros a Hin E. apply (Hold_a a Hin). by rewrite E. }
  assert (Hno_p : forall p, In p (progress_records db) ->
                            Progress.learning_path_id p <> pid).
  { intros p Hin E. apply (Hold_p p Hin). by rewrite E. }
  destruct (assign_content_ok content_ids
              (with_learning_paths (learning_paths db ++ [path]) db)
              (Student.id student) pid 1 now)
    as (db' & new_a & new_p & Hrun & Hasg & Hprog & Hkeys & Hrows & Hpaths & _).
  { exact Hexist. }
  { exact Hnodup. }
  { simpl. intros a Hin E. by destruct (Hno_a a Hin). }
  { simpl. intros p Hin E. by destruct (Hno_p p Hin). }
  simpl in Hasg, Hprog, Hpaths.
  exists path, goals, db', calls, new_a, new_p.
  split.
  { change (LearningPath.id path) with pid. fold content_ids. by rewrite Hrun. }
  split; [exact Hpaths|].
  split; [exact Hasg|]. split; [exact Hprog|].
  split; [exact Hkeys|]. split; [exact Hrows|].
  split; [|split].
  - unfold count_assignments. rewrite Hasg, List.filter_app, length_app.
    rewrite filter_all_false_in, filter_all_true_in; simpl.
    + apply Forall2_length in Hkeys.
      by rewrite <- Hkeys, length_numbered_from.
    + intros a Hin.
      destruct (Forall2_right_In _ _ _ _ Hkeys Hin) as (item & _ & Ha).
      unfold assigns, assignment_key in Ha. inversion Ha. apply Z.eqb_refl.
    + intros a Hin. apply Z.eqb_neq. by apply Hno_a.
  - unfold count_completed. rewrite Hprog, List.filter_app, length_app.
    rewrite !filter_all_false_in; simpl; [done| |].
    + intros p Hin.
      destruct (Forall2_right_In _ _ _ _ Hrows Hin) as (c & _ & k & ->).
      simpl. by rewrite andb_false_r.
    + intros p Hin. apply andb_false_iff. left. apply Z.eqb_neq. by apply Hno_p.
  - intros c Hin. unfold matching_progress.
    rewrite Hprog, List.filter_app.
    rewrite filter_all_false_in.
    2: { intros p Hp. apply andb_false_iff. left. apply andb_false_iff. right.
         apply Z.eqb_neq. by apply Hno_p. }
    destruct (one_initial_row_per_item (Student.id student) pid now content_ids
                new_p c Hrows Hnodup Hin) as [k Hone].
    simpl. rewrite Hone. by eexists.
Qed.

End Paths.

(** What a successful run of the loop implies for its input. *)
Lemma assign_content_Ok (content_ids : list Z) (db db' : DB)
    (student learning_path order now : Z) :
  assign_content db student learning_path order content_ids now = Ok db' ->
  (forall c, In c content_ids ->
     find_by_id Content.id c (contents db) <> None
     /\ assignment_exists db learning_path c = false)
  /\ NoDup content_ids.
Proof.
  revert db order.
  induction content_ids as [|c rest IH]; intros db order Hrun.
  { split; [done|apply NoDup_nil; done]. }
  simpl in Hrun. unfold mbind, result_bind, get_object_or_404 in Hrun.
  destruct (find_by_id Content.id c (contents db)) as [content|] eqn:Hfind; [|done].
  pose proof Hfind as Hfound.
  apply find_by_id_Some in Hfind as [_ Hid]. rewrite Hid in Hrun.
  destruct (assignment_exists db learning_path c) eqn:Hassigned; [done|].
  destruct (progress_exists _ student learning_path c); [done|].
  apply IH in Hrun as [Hrest Hnodup].
  assert (Hlater : forall c', In c' rest ->
            assignment_exists db learning_path c' = false /\ c' <> c).
  { intros c' Hin. destruct (Hrest c' Hin) as [_ Hnone].
    unfold assignment_exists in Hnone. simpl in Hnone.
    rewrite existsb_app in Hnone. apply orb_false_iff in Hnone as [Hold Hnew].
    split; [exact Hold|].
    simpl in Hnew. rewrite Z.eqb_refl, orb_false_r in Hnew. simpl in Hnew.
    apply Z.eqb_neq in Hnew. congruence. }
  split.
  - intros c' [<-|Hin].
    + split; [by rewrite Hfound|exact Hassigned].
    + split; [exact (proj1 (Hrest c' Hin))|exact (proj1 (Hlater c' Hin))].
  - apply NoDup_cons. split; [|exact Hnodup].
    intros Hin. apply list_elem_of_In in Hin.
    by destruct (Hlater c Hin).
Qed.

Section PathsOnlyIf.
Context `{Host}.

(** X12: a learning path is created only for a known student and subject
    and for content items that all exist and are pairwise distinct; a
    request that names an unknown or a repeated content item fails. *)
Theorem path_creation_needs_distinct_items (client : llm_client) (db db' : DB)
    (payload : LearningPathInputSchema.t) (now : Z) (path : LearningPath.t)
    (goals : list pystr) (calls : list llm_request) :
  create_learning_path client db payload now = Ok (path, goals, db', calls) ->
  find_by_id Student.id (LearningPathInputSchema.student_id payload) (students db)
  <> None
  /\ find_by_id Subject.id (LearningPathInputSchema.subject_id payload) (subjects db)
     <> None
  /\ (forall c, In c (LearningPathInputSchema.content_ids payload) ->
        find_by_id Content.id c (contents db) <> None)
  /\ NoDup (LearningPathInputSchema.content_ids payload).
Proof.
  unfold create_learning_path, mbind, result_bind, get_object_or_404. intros Hrun.
  destruct (find_by_id Student.id _ _) as [student|]; [|done].
  destruct (find_by_id Subject.id _ _) as [subject|]; [|done].
  destruct (GrokService.generate_personalized_goals _ _ _ _) as [goals' calls'].
  destruct (assign_content _ _ _ _ _ _) as [db2|] eqn:Hloop; [|done].
  apply assign_content_Ok in Hloop as [Hitems Hnodup].
  split; [done|]. split; [done|]. split; [|exact Hnodup].
  intros c Hin. exact (proj1 (Hitems c Hin)).
Qed.

End PathsOnlyIf.

Lemma sample_rows_belong_to_paths : rows_belong_to_paths Sample.fresh_db.
Proof.
  split.
  - intros a Hin. simpl in Hin.
    destruct Hin as [<-|[<-|[<-|[]]]]; vm_compute; discriminate.
  - intros p Hin. simpl in Hin.
    destruct Hin as [<-|[<-|[<-|[]]]]; vm_compute; discriminate.
Defined.

Lemma new_path_has_one_record_per_item_witness :
  exists (path : LearningPath.t) (goals : list pystr) (db' : DB)
         (calls : list llm_request),
    create_learning_path (H := ascii_host) (Sample.failing_client "Request timed out.")
      Sample.fresh_db MoreSamples.new_path 900
    = Ok (path, goals, db', calls)
    /\ count_assignments db' path = 2
    /\ count_completed db' path = 0.
Proof.
  edestruct (new_path_has_one_record_per_item (H := ascii_host)
               (Sample.failing_client "Request timed out.")
               Sample.fresh_db MoreSamples.new_path 900 Sample.student Sample.subject)
    as (path & goals & db' & calls & new_a & new_p & Hrun & _ & _ & _ & _ & _
        & Hcount & Hcompleted & _).
  - reflexivity.
  - reflexivity.
  - intros c Hin. simpl in Hin.
    destruct Hin as [<-|[<-|[]]]; vm_compute; discriminate.
  - apply (bool_decide_unpack _). vm_compute. exact I.
  - exact sample_rows_belong_to_paths.
  - exists path, goals, db', calls. split; [exact Hrun|].
    split; [exact Hcount|exact Hcompleted].
Defined.

Lemma path_creation_needs_distinct_items_witness :
  exists (path : LearningPath.t) (goals : list pystr) (db' : DB)
         (calls : list llm_request),
    create_learning_path (H := ascii_host) (Sample.failing_client "Request timed out.")
      Sample.fresh_db MoreSamples.new_path 900
    = Ok (path, goals, db', calls)
    /\ NoDup (LearningPathInputSchema.content_ids MoreSamples.new_path).
Proof.
  destruct (create_learning_path (H := ascii_host)
              (Sample.failing_client "Request timed out.")
              Sample.fresh_db MoreSamples.new_path 900)
    as [[[[path goals] db'] calls]|e] eqn:Hrun.
  - exists path, goals, db', calls. split; [reflexivity|].
    exact (proj2 (proj2 (proj2 (path_creation_needs_distinct_items (H := ascii_host)
                                  _ _ _ _ _ _ _ _ Hrun)))).
  - vm_compute in Hrun. discriminate Hrun.
Defined.

(** ** Mentor requests: blank queries and the shape of the bundle *)

Section Bundle.
Context `{Host} {O : QueryOrder}.

(** X13: a mentor request whose query is empty or white space only is
    answered without the client: nothing is sent, the reply is the fixed
    clarifying question, and the exchange is still logged as a session. *)
Theorem blank_mentor_query_skips_the_client (client : llm_client) (db : DB)
    (payload : AIMentorChatInputSchema.t) (student : Student.t)
    (context_data : pydict) (system_context : option pystr) :
  mentor_context db payload = Ok (student, context_data, system_context) ->
  learning_path_known db (AIMentorChatInputSchema.learning_path_id payload) = true ->
  strip (AIMentorChatInputSchema.query payload) = [] ->
  exists (session : AIMentorSession.t) (db' : DB),
    chat_with_ai_mentor client db payload = Ok (session, db', [])
    /\ AIMentorSession.response session = GrokService.empty_query_message
    /\ AIMentorSession.context_data session = context_data
    /\ mentor_sessions db' = mentor_sessions db ++ [session].
Proof.
  intros Hcontext Hknown Hblank.
  pose proof (chat_with_ai_mentor_ok client db payload student context_data
                system_context Hcontext Hknown) as Hrun.
  assert (Hreply :
    GrokService.chat client (AIMentorChatInputSchema.query payload)
      system_context context_data
    = (GrokService.empty_query_message, [])).
  { unfold GrokService.chat. by rewrite bool_decide_eq_true_2. }
  simpl in Hrun. rewrite Hreply in Hrun. simpl in Hrun.
  eexists _, _. split; [exact Hrun|]. done.
Qed.

(** X14: the keys of [context_data], in insertion order, are the student's
    grade and name, then subject and difficulty exactly when the request
    names a learning path, then the current content and its type exactly
    when it names a content item; an identifier 0 counts as not given.  The
    system context is absent exactly when neither is given. *)
Theorem context_bundle_shape (db : DB) (payload : AIMentorChatInputSchema.t)
    (student : Student.t) (context_data : pydict) (system_context : option pystr) :
  mentor_context db payload = Ok (student, context_data, system_context) ->
  map fst context_data
  = [py "student_grade"; py "student_name"]
    ++ match truthy_id (AIMentorChatInputSchema.learning_path_id payload) with
       | Some _ => [py "subject"; py "difficulty"]
       | None => []
       end
    ++ match truthy_id (AIMentorChatInputSchema.content_id payload) with
       | Some _ => [py "current_content"; py "content_type"]
       | None => []
       end
  /\ dict_get context_data (py "student_grade") = Some (JInt (Student.grade_level student))
  /\ dict_get context_data (py "student_name") = Some (JStr (Student.first_name student))
  /\ (system_context = None
      <-> truthy_id (AIMentorChatInputSchema.learning_path_id payload) = None
          /\ truthy_id (AIMentorChatInputSchema.content_id payload) = None).
Proof.
  unfold mentor_context, mbind, result_bind. intros Hrun.
  destruct (get_object_or_404 Student.id _ _) as [student'|]; [|done].
  destruct (truthy_id (AIMentorChatInputSchema.learning_path_id payload)) as [l|].
  - destruct (get_object_or_404 LearningPath.id l _) as [path|]; [|done].
    destruct (related Subject.id _ _) as [subject|]; [|done].
    destruct (progress_sentences db _) as [sentences|]; [|done].
    match type of Hrun with
    | context [?w :: sentences] => set (working := w) in Hrun; clearbody working
    end.
    destruct (truthy_id (AIMentorChatInputSchema.content_id payload)) as [c|].
    + destruct (get_object_or_404 Content.id c _) as [content|]; [|done].
      match type of Hrun with
      | context [_ ++ [?v]] => set (viewing := v) in Hrun; clearbody viewing
      end.
      injection Hrun as <- <- <-.
      split; [reflexivity|]. split; [reflexivity|]. split; [reflexivity|].
      split; [intros E; discriminate E|intros [E _]; discriminate E].
    + injection Hrun as <- <- <-.
      split; [reflexivity|]. split; [reflexivity|]. split; [reflexivity|].
      split; [intros E; discriminate E|intros [E _]; discriminate E].
  - destruct (truthy_id (AIMentorChatInputSchema.content_id payload)) as [c|].
    + destruct (get_object_or_404 Content.id c _) as [content|]; [|done].
      match type of Hrun with
      | context [_ ++ [?v]] => set (viewing := v) in Hrun; clearbody viewing
      end.
      injection Hrun as <- <- <-.
      split; [reflexivity|]. split; [reflexivity|]. split; [reflexivity|].
      split; [intros E; discriminate E|intros [_ E]; discriminate E].
    + injection Hrun as <- <- <-.
      split; [reflexivity|]. split; [reflexivity|]. split; [reflexivity|].
      split; [done|reflexivity].
Qed.

End Bundle.

Lemma blank_mentor_query_skips_the_client_witness :
  exists (session : AIMentorSession.t) (db' : DB),
    chat_with_ai_mentor (H := ascii_host) (O := table_order)
      (Sample.failing_client "Request timed out.")
      Sample.fresh_db MoreSamples.blank_question
    = Ok (session, db', [])
    /\ AIMentorSession.response session = GrokService.empty_query_message.
Proof.
  edestruct (blank_mentor_query_skips_the_client (H := ascii_host) (O := table_order)
               (Sample.failing_client "Request timed out.")
               Sample.fresh_db MoreSamples.blank_question)
    as (session & db' & Hrun & Hresponse & _).
  - vm_compute. reflexivity.
  - reflexivity.
  - vm_compute. reflexivity.
  - exists session, db'. split; [exact Hrun|exact Hresponse].
Defined.

Lemma context_bundle_shape_witness :
  match mentor_context (H := ascii_host) (O := table_order)
          Sample.graded_db Sample.question_to_mentor with
  | Ok (_, context_data, system_context) =>
      map fst context_data
      = [py "student_grade"; py "student_name"; py "subject"; py "difficulty";
         py "current_content"; py "content_type"]
      /\ system_context <> None
  | Err _ => False
  end.
Proof.
  destruct (mentor_context (H := ascii_host) (O := table_order)
              Sample.graded_db Sample.question_to_mentor)
    as [[[student context_data] system_context]|e] eqn:Hrun.
  - destruct (context_bundle_shape (H := ascii_host) (O := table_order) _ _ _ _ _ Hrun)
      as (Hkeys & _ & _ & Hnone).
    split; [exact Hkeys|].
    intros E. apply Hnone in E as [E _]. vm_compute in E. discriminate E.
  - vm_compute in Hrun. discriminate Hrun.
Defined.

(** ** Questions without an answer key *)

(** X15: a question that has no [correct_answer] is graded against [None]:
    it counts as correct when the submitted answer is JSON null, and any
    other submitted answer puts it on the missed list. *)
Theorem question_without_key (question : Question.t) (rest : list Question.t)
    (answers : gmap pystr json) (answer : json) :
  Question.correct_answer question = JNull ->
  answers !! question_id question = Some answer ->
  (answer = JNull ->
   correct_answers (question :: rest) answers = 1 + correct_answers rest answers
   /\ questions_missed (question :: rest) answers = questions_missed rest answers)
  /\ (answer <> JNull ->
      correct_answers (question :: rest) answers = correct_answers rest answers
      /\ questions_missed (question :: rest) answers
         = question_text question :: questions_missed rest answers).
Proof.
  intros Hkey Hanswer.
  assert (Hcorrect : answered_correctly answers question = json_eqb answer JNull)
    by (unfold answered_correctly; by rewrite Hanswer, Hkey).
  assert (Hwrong : answered_incorrectly answers question
                   = negb (json_eqb answer JNull))
    by (unfold answered_incorrectly; by rewrite Hanswer, Hkey).
  rewrite !correct_answers_count, !questions_missed_filter. simpl.
  rewrite Hcorrect, Hwrong.
  split.
  - intros ->. simpl. split; [lia|done].
  - intros Hne. destruct answer; try done; simpl; split; done.
Qed.

Lemma question_without_key_witness :
  let question :=
    {| Question.id := JInt 5; Question.correct_answer := JNull;
       Question.question := None |} in
  let answers : gmap pystr json := {[ py "5" := JNull ]} in
  correct_answers [question] answers = 1
  /\ questions_missed [question] answers = [].
Proof.
  intros question answers.
  destruct (question_without_key question [] answers JNull eq_refl eq_refl)
    as [Hnull _].
  exact (Hnull eq_refl).
Defined.

(** ** Thresholds *)

Lemma float_ge_Z_antitone (f : float) (z z' : Z) :
  z' <= z -> float_ge_Z f z = true -> float_ge_Z f z' = true.
Proof.
  unfold float_ge_Z. intros Hle.
  destruct (Prim2SF f) as [s|s| |s m e]; try done.
  - rewrite !Z.leb_le. lia.
  - destruct (Z.leb_spec 0 e).
    + rewrite !Z.leb_le. lia.
    + assert (Hpow : 0 < 2 ^ (- e)) by (apply Z.pow_pos_nonneg; lia).
      rewrite !Z.leb_le. nia.
Qed.

(** X16: lowering the passing score never turns a pass into a fail: a
    submission that passes an assessment also passes one with the same
    questions and a passing score that is not higher. *)
Theorem lower_threshold_keeps_pass (assessment assessment' : Assessment.t)
    (answers : gmap pystr json) :
  Assessment.questions assessment' = Assessment.questions assessment ->
  Assessment.passing_score assessment' <= Assessment.passing_score assessment ->
  passed assessment answers = true ->
  passed assessment' answers = true.
Proof.
  unfold passed, num_ge_int. intros -> Hle.
  destruct (score (Assessment.questions assessment) answers) as [z|f].
  - rewrite !Z.leb_le. lia.
  - by apply float_ge_Z_antitone.
Qed.

Lemma lower_threshold_keeps_pass_witness :
  passed Sample.quiz Sample.right_answers = true
  /\ passed
       {| Assessment.id := 3; Assessment.subject_id := 1;
          Assessment.content_id := None; Assessment.title := py "Easier quiz";
          Assessment.questions := Assessment.questions Sample.quiz;
          Assessment.passing_score := 50 |}
       Sample.right_answers = true.
Proof.
  assert (Hpass : passed Sample.quiz Sample.right_answers = true)
    by (vm_compute; reflexivity).
  split; [exact Hpass|].
  apply (lower_threshold_keeps_pass Sample.quiz); [reflexivity|simpl; lia|exact Hpass].
Defined.

(** ** Path completion grows with the completed items *)

Lemma hundredths_increase_200 : hundredths_increase 200 = true.
Proof. vm_compute. reflexivity. Qed.

Lemma hundredths_increase_sound (bound : nat) (t : Z) :
  hundredths_increase bound = true ->
  0 < t <= Z.of_nat bound ->
  hundredths_of_ratio 0 t = Some 0
  /\ hundredths_of_ratio t t = Some 10000
  /\ forall c, 0 <= c < t ->
       exists n n', hundredths_of_ratio c t = Some n
                    /\ hundredths_of_ratio (c + 1) t = Some n'
                    /\ n <= n' /\ n < 10000.
Proof.
  intros Hall Ht. unfold hundredths_increase in Hall.
  rewrite forallb_forall in Hall.
  specialize (Hall (Z.to_nat t)).
  assert (Hin_t : In (Z.to_nat t) (seq 1 bound)) by (apply in_seq; lia).
  specialize (Hall Hin_t). rewrite Z2Nat.id in Hall by lia.
  apply andb_true_iff in Hall as [Hends Hsteps].
  destruct (hundredths_of_ratio 0 t) as [none|]; [|done].
  destruct (hundredths_of_ratio t t) as [all|]; [|done].
  apply andb_true_iff in Hends as [Hnone Hall].
  apply Z.eqb_eq in Hnone, Hall. subst none all.
  split; [done|]. split; [done|].
  intros c Hc. rewrite forallb_forall in Hsteps.
  specialize (Hsteps (Z.to_nat c)).
  assert (Hin_c : In (Z.to_nat c) (seq 0 (Z.to_nat t))) by (apply in_seq; lia).
  specialize (Hsteps Hin_c).
  rewrite Nat2Z.inj_succ, Z2Nat.id in Hsteps by lia.
  destruct (hundredths_of_ratio c t) as [n|]; [|done].
  destruct (hundredths_of_ratio (Z.succ c) t) as [n'|] eqn:E; [|done].
  apply andb_true_iff in Hsteps as [Hle Hlt].
  exists n, n'. rewrite <- Z.add_1_r in E.
  split; [done|]. split; [done|]. split; [by apply Z.leb_le|by apply Z.ltb_lt].
Qed.

Section Hundredths.
Variable t : Z.
Hypothesis t_in_range : 0 < t <= 200.

Lemma hundredths_at (c : Z) :
  0 <= c <= t ->
  exists n, hundredths_of_ratio c t = Some n
            /\ 0 <= n <= 10000 /\ (n = 10000 <-> c = t).
Proof.
  destruct (hundredths_increase_sound 200 t hundredths_increase_200)
    as (Hzero & Hfull & Hstep); [lia|].
  intros Hc.
  assert (Hlow : forall k : nat, Z.of_nat k <= t ->
            exists n, hundredths_of_ratio (Z.of_nat k) t = Some n /\ 0 <= n).
  { induction k as [|k IH]; intros Hk.
    - exists 0. by split.
    - destruct IH as (n & Hn & Hpos); [lia|].
      destruct (Hstep (Z.of_nat k)) as (n0 & n' & Hn0 & Hn' & Hle & _); [lia|].
      rewrite Hn in Hn0. inversion Hn0; subst n0.
      exists n'. rewrite Nat2Z.inj_succ, <- Z.add_1_r. split; [done|lia]. }
  destruct (Hlow (Z.to_nat c)) as (n & Hn & Hpos); [lia|].
  rewrite Z2Nat.id in Hn by lia.
  exists n. split; [exact Hn|].
  destruct (Z.eq_dec c t) as [->|Hne].
  - rewrite Hfull in Hn. inversion Hn; subst. lia.
  - destruct (Hstep c) as (n0 & n' & Hn0 & _ & _ & Hlt); [lia|].
    rewrite Hn in Hn0. inversion Hn0; subst n0. lia.
Qed.

Lemma hundredths_grow (c1 c2 : Z) :
  0 <= c1 <= c2 -> c2 <= t ->
  exists n1 n2, hundredths_of_ratio c1 t = Some n1
                /\ hundredths_of_ratio c2 t = Some n2
                /\ n1 <= n2.
Proof.
  destruct (hundredths_increase_sound 200 t hundredths_increase_200)
    as (_ & _ & Hstep); [lia|].
  intros Hc1 Hc2.
  assert (Hup : forall d : nat, c1 + Z.of_nat d <= t ->
            exists n1 n2, hundredths_of_ratio c1 t = Some n1
                          /\ hundredths_of_ratio (c1 + Z.of_nat d) t = Some n2
                          /\ n1 <= n2).
  { induction d as [|d IH]; intros Hd.
    - destruct (hundredths_at c1) as (n & Hn & _); [lia|].
      exists n, n. rewrite Z.add_0_r. split; [done|]. split; [done|lia].
    - destruct IH as (n1 & n2 & Hn1 & Hn2 & Hle); [lia|].
      destruct (Hstep (c1 + Z.of_nat d)) as (n & n' & Hn & Hn' & Hle' & _); [lia|].
      rewrite Hn2 in Hn. inversion Hn; subst n.
      exists n1, n'.
      replace (c1 + Z.of_nat (S d)) with (c1 + Z.of_nat d + 1) by lia.
      split; [done|]. split; [done|lia]. }
  destruct (Hup (Z.to_nat (c2 - c1))) as (n1 & n2 & Hn1 & Hn2 & Hle); [lia|].
  replace (c1 + Z.of_nat (Z.to_nat (c2 - c1))) with c2 in Hn2 by lia.
  by exists n1, n2.
Qed.

End Hundredths.

(** X17: for a path with 1 to 200 assignments and never more progress rows
    with [completed_at] set than assignments (the code does not enforce
    this), the completion percentage does not go down when, with the
    assignments unchanged, more rows carry the stamp.  It is then a whole
    number of hundredths between 0 and 100, and it is 100 exactly when the
    stamped rows are as many as the assignments. *)
Theorem completion_grows_with_completed_items (db db' : DB)
    (path path' : LearningPath.t) :
  count_assignments db' path' = count_assignments db path ->
  0 < count_assignments db path <= 200 ->
  count_completed db path <= count_completed db' path' ->
  count_completed db' path' <= count_assignments db path ->
  exists n n' : Z,
    completion_percentage db path = PrimFloat.div (of_Z n) (of_Z 100)
    /\ completion_percentage db' path' = PrimFloat.div (of_Z n') (of_Z 100)
    /\ 0 <= n <= n' /\ n' <= 10000
    /\ (n' = 10000 <-> count_completed db' path' = count_assignments db path).
Proof.
  intros Hsame Ht Hgrow Hmax.
  assert (Hpos : 0 <= count_completed db path) by (unfold count_completed; lia).
  destruct (hundredths_grow _ Ht (count_completed db path) (count_completed db' path'))
    as (n & n' & Hn & Hn' & Hle); [lia|lia|].
  destruct (hundredths_at _ Ht (count_completed db path)) as (m & Hm & Hrange & _);
    [lia|].
  destruct (hundredths_at _ Ht (count_completed db' path'))
    as (m' & Hm' & Hrange' & Hfull'); [lia|].
  rewrite Hn in Hm. rewrite Hn' in Hm'. inversion Hm; inversion Hm'; subst m m'.
  exists n, n'.
  unfold completion_percentage. rewrite Hsame.
  destruct (Z.eqb_spec (count_assignments db path) 0) as [E|_]; [lia|].
  split; [by apply hundredths_of_ratio_sound|].
  split; [by apply hundredths_of_ratio_sound|].
  split; [lia|]. split; [lia|exact Hfull'].
Qed.

Lemma completion_grows_with_completed_items_witness :
  exists n n' : Z,
    completion_percentage Sample.fresh_db Sample.path
    = PrimFloat.div (of_Z n) (of_Z 100)
    /\ completion_percentage Sample.two_of_three_db Sample.path
       = PrimFloat.div (of_Z n') (of_Z 100)
    /\ 0 <= n <= n' /\ n' <= 10000.
Proof.
  destruct (completion_grows_with_completed_items Sample.fresh_db
              Sample.two_of_three_db Sample.path Sample.path)
    as (n & n' & Hn & Hn' & Hle & Hmax & _).
  - reflexivity.
  - vm_compute. split; [reflexivity|discriminate].
  - vm_compute. discriminate.
  - vm_compute. discriminate.
  - exists n, n'. split; [exact Hn|]. split; [exact Hn'|]. split; [exact Hle|exact Hmax].
Defined.
